(** * VoxcoSurveyBot: the survey adapter, the chat session and the shell

    A shallow embedding of [gemini_chatbot/utils/gemini_client.py] and
    [gemini_chatbot/main.py].  Python function bodies are written in a
    small monad that carries the object a method acts on, the events
    the code emits (log records, HTTP requests, console output, calls
    into the chat backend), and the ways a statement can leave its
    block: falling through, [return], a propagating exception, or
    [sys.exit]. *)

From Stdlib Require Import String Ascii List ZArith Bool Lia DecimalString.
From Stdlib Require Import Floats.PrimFloat.
Import ListNotations.
Open Scope string_scope.
Open Scope Z_scope.

(** ** Python values *)

(** The values [response.json()] can produce, which are also the values
    the adapter functions return.  [PyNone] is Python's [None]. *)
#[local] Set Warnings "-register-all".
Inductive pyval : Type :=
| PyNone
| PyBool (b : bool)
| PyInt (n : Z)
| PyFloat (f : float)
| PyStr (s : string)
| PyList (items : list pyval)
| PyDict (entries : list (string * pyval)).
#[local] Set Warnings "register-all".

(** Truth value testing, as [if token:] and [not token] perform it. *)
Definition truthy (v : pyval) : bool :=
  match v with
  | PyNone => false
  | PyBool b => b
  | PyInt n => negb (n =? 0)
  | PyFloat f => negb (PrimFloat.eqb f PrimFloat.zero)
  | PyStr s => negb (s =? "")%string
  | PyList items => match items with [] => false | _ => true end
  | PyDict entries => match entries with [] => false | _ => true end
  end.

(** An [Optional[str]] argument: [None] or a [str]. *)
Definition opt_truthy (o : option string) : bool :=
  match o with
  | None => false
  | Some s => negb (s =? "")%string
  end.

(** [a or b] on [Optional[str]] operands. *)
Definition py_or (a b : option string) : option string :=
  if opt_truthy a then a else b.

(** [str(n)] for an [int]. *)
Definition str_of_int (n : Z) : string := NilZero.string_of_int (Z.to_int n).

(** ** Exceptions *)

(** The classes of [Exception] the program meets.  The first three are
    subclasses of [requests.exceptions.RequestException]; the JSON
    decoding error of [requests] is also a [ValueError];
    [MarkupError] is [rich.errors.MarkupError]. *)
Inductive exn_class : Type :=
| RequestsConnectionError
| RequestsHTTPError
| RequestsJSONDecodeError
| ValueError
| AttributeError
| EOFError
| MarkupError
| OtherException (name : string).

Record exn : Type := mkExn { exn_cls : exn_class; exn_msg : string }.

(** [isinstance(e, requests.exceptions.RequestException)] *)
Definition is_RequestException (e : exn) : bool :=
  match exn_cls e with
  | RequestsConnectionError | RequestsHTTPError | RequestsJSONDecodeError => true
  | _ => false
  end.

(** [isinstance(e, ValueError)] *)
Definition is_ValueError (e : exn) : bool :=
  match exn_cls e with
  | ValueError | RequestsJSONDecodeError => true
  | _ => false
  end.

(** [isinstance(e, Exception)]: every modelled class derives from it. *)
Definition is_Exception (e : exn) : bool := true.

(** [str(e)] *)
Definition exn_str (e : exn) : string := exn_msg e.

(** ** Events *)

Inductive log_level : Type := INFO | ERROR.

Inductive log_arg : Type :=
| ArgVal (v : pyval)
| ArgInt (n : Z)
| ArgStr (s : string).

Inductive http_method : Type := GET | POST.

Record http_request : Type := mkRequest {
  req_method : http_method;
  req_url : string;
  req_headers : list (string * string);
  req_json : option string
}.

(** What the program does to the outside world, in order.  A log
    record keeps the f-string's literal text with [{}] at each
    interpolation, and the interpolated values beside it. *)
Inductive event : Type :=
| EvLog (logger : string) (level : log_level) (template : string) (args : list log_arg)
| EvHttp (req : http_request)
| EvSetEnv (key value : string)
| EvInput (prompt : string)
| EvConsole (markup : string)
| EvMarkdown (text : string)
| EvPrint (text : string)
| EvPathExists (path : string)
| EvGenaiClient (api_key : option string)
| EvChatCreate (model : string) (system_instruction : option string) (tools : list string)
| EvBackend (message : string).

Definition is_http (ev : event) : bool :=
  match ev with EvHttp _ => true | _ => false end.

Definition is_backend (ev : event) : bool :=
  match ev with EvBackend _ | EvChatCreate _ _ _ | EvGenaiClient _ => true | _ => false end.

(** ** The statement monad *)

(** How a statement ends: it completes with a value, it executes
    [return r], an exception propagates, or [sys.exit(code)] ends the
    process. *)
Inductive res (R A : Type) : Type :=
| Val (a : A)
| Ret (r : R)
| Exc (e : exn)
| Exit (code : Z).
Arguments Val {R A} a.
Arguments Ret {R A} r.
Arguments Exc {R A} e.
Arguments Exit {R A} code.

(** [S] is the mutable object in scope ([self] in a method), [R] the
    type the enclosing function returns. *)
Definition M (S R A : Type) : Type := S -> list event * S * res R A.

Definition pure {S R A} (a : A) : M S R A := fun s => ([], s, Val a).

Definition bind {S R A B} (m : M S R A) (k : A -> M S R B) : M S R B :=
  fun s =>
    match m s with
    | (t, s', Val a) =>
        match k a s' with (t', s'', r) => ((t ++ t')%list, s'', r) end
    | (t, s', Ret r) => (t, s', Ret r)
    | (t, s', Exc e) => (t, s', Exc e)
    | (t, s', Exit c) => (t, s', Exit c)
    end.

Notation "x <- m ;; k" := (bind m (fun x => k))
  (at level 61, m at next level, right associativity).
Notation "m ;; k" := (bind m (fun _ => k))
  (at level 61, right associativity).

Definition emit {S R} (ev : event) : M S R unit := fun s => ([ev], s, Val tt).
Definition return_ {S R A} (r : R) : M S R A := fun s => ([], s, Ret r).
Definition raise {S R A} (e : exn) : M S R A := fun s => ([], s, Exc e).
Definition sys_exit {S R A} (code : Z) : M S R A := fun s => ([], s, Exit code).
Definition get_self {S R} : M S R S := fun s => ([], s, Val s).
Definition put_self {S R} (s' : S) : M S R unit := fun _ => ([], s', Val tt).

(** One [except <class> as e: handler] clause: the [isinstance] test of
    the class, and the handler. *)
Definition except_clause (S R A : Type) : Type :=
  ((exn -> bool) * (exn -> M S R A))%type.

(** The first clause whose class the exception is an instance of. *)
Fixpoint find_clause {S R A} (clauses : list (except_clause S R A)) (e : exn)
  : option (exn -> M S R A) :=
  match clauses with
  | [] => None
  | (catches, handler) :: rest =>
      if catches e then Some handler else find_clause rest e
  end.

(** [try: body] followed by [except] clauses.  An exception raised
    by [body] runs the first matching handler; what a handler raises
    is not offered to the other clauses. *)
Definition try_excepts {S R A} (body : M S R A)
    (clauses : list (except_clause S R A)) : M S R A :=
  fun s =>
    match body s with
    | (t, s', Exc e) =>
        match find_clause clauses e with
        | Some handler =>
            match handler e s' with (t', s'', r) => ((t ++ t')%list, s'', r) end
        | None => (t, s', Exc e)
        end
    | other => other
    end.

Definition try_except {S R A} (body : M S R A) (catches : exn -> bool)
    (handler : exn -> M S R A) : M S R A :=
  try_excepts body [(catches, handler)].

(** Calling a function whose body is [body]: a [return r] inside gives
    the call the value [r]; a body that falls off its end gives
    [none]. *)
Definition call {S R R' : Type} (none : R) (body : M S R unit) : M S R' R :=
  fun s =>
    match body s with
    | (t, s', Val _) => (t, s', Val none)
    | (t, s', Ret r) => (t, s', Val r)
    | (t, s', Exc e) => (t, s', Exc e)
    | (t, s', Exit c) => (t, s', Exit c)
    end.

(** The same for a body every path of which ends in [return] or
    [raise]: it has no value to fall through with. *)
Definition call_total {S R R' : Type} (body : M S R Empty_set) : M S R' R :=
  fun s =>
    match body s with
    | (t, s', Val impossible) => match impossible with end
    | (t, s', Ret r) => (t, s', Val r)
    | (t, s', Exc e) => (t, s', Exc e)
    | (t, s', Exit c) => (t, s', Exit c)
    end.

(** Running a computation on another object, as a caller does with a
    method of a local variable; the caller's own object is untouched
    and the callee's final object is handed back. *)
Definition on_object {S T R A} (obj : T) (m : M T R A) : M S R (T * A) :=
  fun s =>
    match m obj with
    | (t, obj', Val a) => (t, s, Val (obj', a))
    | (t, obj', Ret r) => (t, s, Ret r)
    | (t, obj', Exc e) => (t, s, Exc e)
    | (t, obj', Exit c) => (t, s, Exit c)
    end.

(** [logging.info] / [logging.error] on the root logger. *)
Definition logging_info {S R} (template : string) (args : list log_arg) : M S R unit :=
  emit (EvLog "root" INFO template args).
Definition logging_error {S R} (template : string) (args : list log_arg) : M S R unit :=
  emit (EvLog "root" ERROR template args).

(** ** The HTTP library *)

(** What the server (or the network) answers to one request.  [body]
    is the response body parsed as JSON, [None] when it is not JSON. *)
Inductive http_result : Type :=
| TransportError (msg : string)
| HttpResponse (status : Z) (reason : string) (body : option pyval).

Record response : Type := mkResponse {
  resp_url : string;
  resp_status : Z;
  resp_reason : string;
  resp_body : option pyval
}.

(** [dict.get(key)]: the first binding of [key], [None] without one. *)
Fixpoint dict_get (entries : list (string * pyval)) (key : string) : pyval :=
  match entries with
  | [] => PyNone
  | (k, v) :: rest => if (k =? key)%string then v else dict_get rest key
  end.

Definition type_name (v : pyval) : string :=
  match v with
  | PyNone => "NoneType"
  | PyBool _ => "bool"
  | PyInt _ => "int"
  | PyFloat _ => "float"
  | PyStr _ => "str"
  | PyList _ => "list"
  | PyDict _ => "dict"
  end.

(** [data.get(key)] on whatever [response.json()] gave: only a [dict]
    has the method. *)
Definition py_get {S R} (data : pyval) (key : string) : M S R pyval :=
  match data with
  | PyDict entries => pure (dict_get entries key)
  | other =>
      raise (mkExn AttributeError
               ("'" ++ type_name other ++ "' object has no attribute 'get'"))
  end.

Section Program.

(** The network: the answer to each request. *)
Variable http : http_request -> http_result.

(** [requests.get(url, headers=...)] and [requests.post(url, headers=...,
    json=...)]: a transport failure raises a [RequestException].
    What the library raises before anything is sent, for a header
    value it cannot encode, is not covered. *)
Definition requests_send {S R} (req : http_request) : M S R response :=
  emit (EvHttp req) ;;
  match http req with
  | TransportError msg => raise (mkExn RequestsConnectionError msg)
  | HttpResponse status reason body =>
      pure (mkResponse (req_url req) status reason body)
  end.

Definition requests_get {S R} (url : string) (headers : list (string * string))
  : M S R response :=
  requests_send (mkRequest GET url headers None).

Definition requests_post {S R} (url : string) (headers : list (string * string))
    (json : string) : M S R response :=
  requests_send (mkRequest POST url headers (Some json)).

(** [response.raise_for_status()]: [HTTPError] for a status from 400
    to 599, nothing otherwise. *)
Definition raise_for_status {S R} (r : response) : M S R unit :=
  if (400 <=? resp_status r) && (resp_status r <? 500) then
    raise (mkExn RequestsHTTPError
             (str_of_int (resp_status r) ++ " Client Error: " ++ resp_reason r
              ++ " for url: " ++ resp_url r))
  else if (500 <=? resp_status r) && (resp_status r <? 600) then
    raise (mkExn RequestsHTTPError
             (str_of_int (resp_status r) ++ " Server Error: " ++ resp_reason r
              ++ " for url: " ++ resp_url r))
  else pure tt.

(** [response.json()] *)
Definition response_json {S R} (r : response) : M S R pyval :=
  match resp_body r with
  | Some v => pure v
  | None => raise (mkExn RequestsJSONDecodeError "Expecting value: line 1 column 1 (char 0)")
  end.

(** ** gemini_client.py: the survey adapter *)

Definition authenticate_voxco_body {S} (username password : string) : M S pyval Empty_set :=
  logging_info "Authenticating with Voxco API for user: {}" [ArgStr username] ;;
  let url := "https://beta7.voxco.com/api/authentication/user?userInfo.username="
             ++ username ++ "&userInfo.password=" ++ password in
  try_except
    (response <- requests_get url [] ;;
     raise_for_status response ;;
     data <- response_json response ;;
     tok <- py_get data "Token" ;;
     logging_info "Authentication successful. Token: {}" [ArgVal tok] ;;
     tok' <- py_get data "Token" ;;
     return_ tok')
    is_RequestException
    (fun e =>
       logging_error "Authentication error: {}" [ArgStr (exn_str e)] ;;
       return_ PyNone).

Definition authenticate_voxco {S R} (username password : string) : M S R pyval :=
  call_total (authenticate_voxco_body username password).

Definition load_survey_body {S} (token : option string) (survey_id : Z) : M S pyval Empty_set :=
  logging_info "Exporting survey data for survey ID: {}" [ArgInt survey_id] ;;
  (if negb (opt_truthy token) then
     logging_error "No authentication token provided" [] ;;
     return_ PyNone
   else pure tt) ;;
  let url := "https://beta7.voxco.com/api/survey/export/json/"
             ++ str_of_int survey_id ++ "?deployed=false&modality=Master" in
  let headers := [("Authorization", "Client " ++ match token with Some t => t | None => "None" end)] in
  try_except
    (response <- requests_get url headers ;;
     raise_for_status response ;;
     logged <- response_json response ;;
     logging_info "Survey export successful. Response: {}" [ArgVal logged] ;;
     data <- response_json response ;;
     return_ data)
    is_RequestException
    (fun e =>
       logging_error "Survey export error: {}" [ArgStr (exn_str e)] ;;
       return_ PyNone).

Definition load_survey {S R} (token : option string) (survey_id : Z) : M S R pyval :=
  call_total (load_survey_body token survey_id).

Definition save_survey_body {S} (token : option string) (survey_id : Z)
    (survey_data : string) : M S pyval Empty_set :=
  logging_info "Importing survey data for survey ID: {} survey Data: {}"
    [ArgInt survey_id; ArgStr survey_data] ;;
  return_ (A := unit) (PyBool true) ;;
  (if negb (opt_truthy token) then
     logging_error "No authentication token provided" [] ;;
     return_ (PyBool false)
   else pure tt) ;;
  let url := "https://beta7.voxco.com/api/survey/import/json/" ++ str_of_int survey_id in
  let headers := [("Authorization", "Client " ++ match token with Some t => t | None => "None" end);
                  ("Content-Type", "application/json")] in
  try_except
    (response <- requests_post url headers survey_data ;;
     raise_for_status response ;;
     logging_info "Survey import successful for survey ID: {}" [ArgInt survey_id] ;;
     return_ (PyBool true))
    is_RequestException
    (fun e =>
       logging_error "Survey import error: {}" [ArgStr (exn_str e)] ;;
       return_ (PyBool false)).

Definition save_survey {S R} (token : option string) (survey_id : Z)
    (survey_data : string) : M S R pyval :=
  call_total (save_survey_body token survey_id survey_data).

End Program.


(** ** Strings *)

(** A [str] is a sequence of code points; a character here is a code
    point below 256 (Latin-1), and the text the program handles is
    text of such characters.  [str.lower()] maps the capital letters
    A to Z and the accented capitals 192 to 222 (but not the
    multiplication sign 215) to the letter 32 places higher. *)
Definition lower_char (c : ascii) : ascii :=
  let n := N_of_ascii c in
  if ((N.leb 65 n && N.leb n 90)
      || (N.leb 192 n && N.leb n 222 && negb (N.eqb n 215)))%bool
  then ascii_of_N (n + 32) else c.

Fixpoint lower (s : string) : string :=
  match s with
  | EmptyString => EmptyString
  | String c rest => String (lower_char c) (lower rest)
  end.

(** The white space [str.strip()] removes: tab to carriage return,
    the four separators 28 to 31, the space, next line (133) and the
    no-break space (160). *)
Definition is_space (c : ascii) : bool :=
  let n := N_of_ascii c in
  ((N.leb 9 n && N.leb n 13) || (N.leb 28 n && N.leb n 32)
   || N.eqb n 133 || N.eqb n 160)%bool.

Fixpoint lstrip (s : string) : string :=
  match s with
  | EmptyString => EmptyString
  | String c rest => if is_space c then lstrip rest else s
  end.

Fixpoint string_rev (s : string) : string :=
  match s with
  | EmptyString => EmptyString
  | String c rest => (string_rev rest ++ String c EmptyString)%string
  end.

Definition rstrip (s : string) : string := string_rev (lstrip (string_rev s)).

Definition strip (s : string) : string := rstrip (lstrip s).

(** [s.startswith(p)] *)
Definition startswith (s p : string) : bool := String.prefix p s.

(** [s[n:]] *)
Fixpoint slice_from (n : nat) (s : string) : string :=
  match n, s with
  | O, _ => s
  | S n', String _ rest => slice_from n' rest
  | S _, EmptyString => EmptyString
  end.

(** [x in xs] for a collection of strings. *)
Definition str_in (x : string) (xs : list string) : bool :=
  existsb (String.eqb x) xs.

(** Truth value of a [str]. *)
Definition str_truthy (s : string) : bool := negb (s =? "")%string.

(** [c in s] for a character. *)
Fixpoint has_char (c : ascii) (s : string) : bool :=
  match s with
  | EmptyString => false
  | String d rest => (Ascii.eqb c d || has_char c rest)%bool
  end.

(** ** rich: console markup *)

(** [Console.print] reads a string as console markup: text with
    [[style]] and [[/style]] tags.  What follows is [rich.markup], as
    far as it decides whether a string can be printed. *)

(** A tag begins with a small letter, [#], [/] or [@]. *)
Definition is_tag_start (c : ascii) : bool :=
  let n := N_of_ascii c in
  ((N.leb 97 n && N.leb n 122) || N.eqb n 35 || N.eqb n 47 || N.eqb n 64)%bool.

(** The rest of a tag's text, up to the first closing bracket; there
    is no tag when an opening bracket or the end of the string comes
    first. *)
Fixpoint tag_rest (s : string) : option string :=
  match s with
  | EmptyString => None
  | String c rest =>
      if Ascii.eqb c "]" then Some EmptyString
      else if Ascii.eqb c "[" then None
      else option_map (String c) (tag_rest rest)
  end.

(** The text of the tag whose opening bracket has just been read. *)
Definition tag_text_at (s : string) : option string :=
  match s with
  | EmptyString => None
  | String c rest =>
      if is_tag_start c then option_map (String c) (tag_rest rest) else None
  end.

(** The matches of [RE_TAGS] that are tags, from left to right, each
    with the position of its opening bracket.  [slashes] counts the
    backslashes just before the current character; a match preceded
    by an odd number of them is an escaped tag and plain text.
    [in_tag] is set while the characters of a match are passed
    over. *)
Fixpoint markup_tags (s : string) (pos slashes : nat) (in_tag : bool)
  : list (nat * string) :=
  match s with
  | EmptyString => []
  | String c rest =>
      if in_tag then markup_tags rest (S pos) O (negb (Ascii.eqb c "]"))
      else if Ascii.eqb c "092" then markup_tags rest (S pos) (S slashes) false
      else if Ascii.eqb c "[" then
        match tag_text_at rest with
        | Some text =>
            ((if Nat.even slashes then [(pos, text)] else [])
             ++ markup_tags rest (S pos) O true)%list
        | None => markup_tags rest (S pos) O false
        end
      else markup_tags rest (S pos) O false
  end.

(** [text.partition("=")]: the name, and the parameters when there is
    an equals sign. *)
Fixpoint partition_equals (s : string) : string * option string :=
  match s with
  | EmptyString => (EmptyString, None)
  | String c rest =>
      if Ascii.eqb c "=" then (EmptyString, Some rest)
      else match partition_equals rest with
           | (name, parameters) => (String c name, parameters)
           end
  end.

Record Tag : Type := mkTag { tag_name : string; tag_parameters : option string }.

(** [tag.markup] *)
Definition tag_markup (t : Tag) : string :=
  match tag_parameters t with
  | None => "[" ++ tag_name t ++ "]"
  | Some parameters => "[" ++ tag_name t ++ "=" ++ parameters ++ "]"
  end.

(** [pop_style]: the open tag nearest the top of the stack with the
    given name, taken out of the stack. *)
Fixpoint pop_style (stack : list Tag) (style_name : string) : option (Tag * list Tag) :=
  match stack with
  | [] => None
  | top :: below =>
      if (tag_name top =? style_name)%string then Some (top, below)
      else match pop_style below style_name with
           | Some (found, below') => Some (found, top :: below')
           | None => None
           end
  end.

Section Markup.

(** [Style.normalize], and the text of the [MarkupError] raised when
    the parameters of a closed [@] tag do not evaluate ([None] when
    they do): both are the library's business. *)
Variable normalize : string -> string.
Variable meta_error : string -> option string.

(** What closing [open_tag] can raise. *)
Definition close_error (open_tag : Tag) : option exn :=
  if startswith (tag_name open_tag) "@" then
    match tag_parameters open_tag with
    | Some parameters =>
        if str_truthy parameters
        then option_map (mkExn MarkupError) (meta_error parameters)
        else None
    | None => None
    end
  else None.

(** The loop of [render] over the tags, with the stack of open tags
    (top first): the exception it raises, if any. *)
Fixpoint render_tags (tags : list (nat * string)) (stack : list Tag) : option exn :=
  match tags with
  | [] => None
  | (position, text) :: more =>
      let tag := match partition_equals text with
                 | (name, parameters) => mkTag name parameters
                 end in
      if startswith (tag_name tag) "/" then
        let style_name := strip (slice_from 1 (tag_name tag)) in
        if str_truthy style_name then
          match pop_style stack (normalize style_name) with
          | Some (open_tag, stack') =>
              match close_error open_tag with
              | Some e => Some e
              | None => render_tags more stack'
              end
          | None =>
              Some (mkExn MarkupError
                      ("closing tag '" ++ tag_markup tag ++ "' at position "
                       ++ str_of_int (Z.of_nat position)
                       ++ " doesn't match any open tag"))
          end
        else
          match stack with
          | open_tag :: stack' =>
              match close_error open_tag with
              | Some e => Some e
              | None => render_tags more stack'
              end
          | [] =>
              Some (mkExn MarkupError
                      ("closing tag '[/]' at position "
                       ++ str_of_int (Z.of_nat position) ++ " has nothing to close"))
          end
      else
        render_tags more (mkTag (normalize (tag_name tag)) (tag_parameters tag) :: stack)
  end.

(** What [render(markup)] raises, if anything. *)
Definition markup_error (markup : string) : option exn :=
  render_tags (markup_tags markup O O false) [].

End Markup.

(** ** Configuration and the outside world *)

(** The attributes of the [config] module that the two files read.
    The module is not among the sources, so its values are a
    parameter of everything below. *)
Record Config : Type := mkConfig {
  GEMINI_API_KEY : option string;
  GEMINI_MODEL : string;
  SYSTEM_PROMPT : option string;
  ENABLE_RICH_FORMATTING : bool;
  AI_RESPONSE_PREFIX : string;
  USER_PROMPT_PREFIX : string;
  EXIT_COMMANDS : list string
}.

(** The chat object [client.chats.create] returns.  The turns of the
    conversation live inside it. *)
Record Chat : Type := mkChat {
  chat_model : string;
  chat_system_instruction : option string;
  chat_tools : list string;
  chat_history : list (string * string)
}.

(** One call of [chat.send_message] followed by [response.text]: the
    SDK raises, or there is a reply with its text and the turns the
    SDK recorded in the conversation for this call (the message, the
    reply, and the calls of tools it made on the way).  A response
    whose [text] is [None] is not covered. *)
Inductive backend_result : Type :=
| BackendRaises (e : exn)
| BackendReplies (text : string) (recorded : list (string * string)).

(** Everything the program does not decide itself. *)
Record World : Type := mkWorld {
  http : http_request -> http_result;
  path_exists : string -> bool;
  genai_Client : option string -> option exn;
  chats_create : string -> option string -> list string -> option exn;
  backend : Chat -> string -> backend_result;
  style_normalize : string -> string;
  meta_params_error : string -> option string
}.

(** ** gemini_client.py: the chat session *)

(** The instance attributes [__init__] sets; [self_chat] is [self.chat]. *)
Record GeminiClient : Type := mkClient {
  logger : string;
  api_key : option string;
  system_prompt : option string;
  client : option string;
  self_chat : Chat;
  voxco_token : pyval
}.

Definition set_voxco_token (self : GeminiClient) (token : pyval) : GeminiClient :=
  mkClient (logger self) (api_key self) (system_prompt self) (client self)
           (self_chat self) token.

Definition set_chat (self : GeminiClient) (c : Chat) : GeminiClient :=
  mkClient (logger self) (api_key self) (system_prompt self) (client self)
           c (voxco_token self).

(** [ai_functions = [authenticate_voxco, load_survey, save_survey]] *)
Definition ai_functions : list string :=
  ["authenticate_voxco"; "load_survey"; "save_survey"].

Definition credential_error : exn :=
  mkExn ValueError
    "Gemini API key is required. Set it in .env file or pass it to the constructor.".

(** The exception the lookup of a missing attribute [process_file]
    raises on a [GeminiClient]. *)
Definition no_process_file : exn :=
  mkExn AttributeError "'GeminiClient' object has no attribute 'process_file'".

Section Client.

Variable config : Config.
Variable world : World.

(** [GeminiClient(api_key, system_prompt)] *)
Definition GeminiClient_init {S R} (api_key_arg system_prompt_arg : option string)
  : M S R GeminiClient :=
  let self_logger := "GeminiChat" in
  let self_api_key := py_or api_key_arg (GEMINI_API_KEY config) in
  (if negb (opt_truthy self_api_key) then raise credential_error else pure tt) ;;
  let self_system_prompt := py_or system_prompt_arg (SYSTEM_PROMPT config) in
  emit (EvGenaiClient self_api_key) ;;
  match genai_Client world self_api_key with Some e => raise e | None => pure tt end ;;
  let self_client := self_api_key in
  emit (EvChatCreate (GEMINI_MODEL config) self_system_prompt ai_functions) ;;
  match chats_create world (GEMINI_MODEL config) self_system_prompt ai_functions with
  | Some e => raise e
  | None => pure tt
  end ;;
  let self_chat := mkChat (GEMINI_MODEL config) self_system_prompt ai_functions [] in
  pure (mkClient self_logger self_api_key self_system_prompt self_client self_chat PyNone).

(** [self.logger.info] / [self.logger.error] *)
Definition logger_info {R} (template : string) (args : list log_arg)
  : M GeminiClient R unit :=
  self <- get_self ;; emit (EvLog (logger self) INFO template args).
Definition logger_error {R} (template : string) (args : list log_arg)
  : M GeminiClient R unit :=
  self <- get_self ;; emit (EvLog (logger self) ERROR template args).

Definition authenticate_with_voxco_body (username password : string)
  : M GeminiClient pyval Empty_set :=
  token <- authenticate_voxco (http world) username password ;;
  (if truthy token then
     self <- get_self ;;
     put_self (set_voxco_token self token) ;;
     logger_info "Successfully authenticated with Voxco API" []
   else
     logger_error "Failed to authenticate with Voxco API" []) ;;
  return_ token.

Definition authenticate_with_voxco {R} (username password : string)
  : M GeminiClient R pyval :=
  call_total (authenticate_with_voxco_body username password).

(** [self.chat.send_message(message)] and the [.text] of what it
    returns.  With a reply, the SDK has added turns to the
    conversation. *)
Definition chat_send_message {R} (message : string) : M GeminiClient R string :=
  self <- get_self ;;
  emit (EvBackend message) ;;
  match backend world (self_chat self) message with
  | BackendRaises e => raise e
  | BackendReplies text recorded =>
      let c := self_chat self in
      put_self (set_chat self
                  (mkChat (chat_model c) (chat_system_instruction c) (chat_tools c)
                     (chat_history c ++ recorded)%list)) ;;
      pure text
  end.

Definition send_message_body (message : string) : M GeminiClient string Empty_set :=
  try_except
    (logger_info "USER: {}" [ArgStr message] ;;
     response_text <- chat_send_message message ;;
     logger_info "AI: {}" [ArgStr response_text] ;;
     return_ response_text)
    is_Exception
    (fun e =>
       let error_msg := "Error in processing: " ++ exn_str e in
       logger_error error_msg [] ;;
       return_ error_msg).

Definition send_message {R} (message : string) : M GeminiClient R string :=
  call_total (send_message_body message).

(** [client.process_file]: the class body defines [__init__],
    [authenticate_with_voxco] and [send_message], and [__init__] sets
    [logger], [api_key], [system_prompt], [client], [chat] and
    [voxco_token]; there is no attribute [process_file], so looking
    it up raises. *)
Definition process_file {R} (file_path : string) : M GeminiClient R string :=
  raise no_process_file.

(** ** main.py: the shell *)

(** [console.print(markup)]: the string is rendered as console
    markup first, which raises on a closing tag that closes
    nothing. *)
Definition console_print {S R} (markup : string) : M S R unit :=
  match markup_error (style_normalize world) (meta_params_error world) markup with
  | Some e => raise e
  | None => emit (EvConsole markup)
  end.

Definition display_response {S R} (text : string) : M S R unit :=
  if ENABLE_RICH_FORMATTING config
  then emit (EvMarkdown text)
  else emit (EvPrint (AI_RESPONSE_PREFIX config ++ text)).

Definition display_welcome {S R} : M S R unit :=
  console_print "[bold blue]Welcome to Voxco Chatbot![/bold blue]" ;;
  console_print ("Using model: [green]" ++ GEMINI_MODEL config ++ "[/green]") ;;
  console_print "---".

(** [os.path.exists(path)] *)
Definition os_path_exists {S R} (path : string) : M S R bool :=
  emit (EvPathExists path) ;; pure (path_exists world path).

(** How one pass through the body of [while True:] ends. *)
Inductive loop_ctl : Type := Break | Continue.

Definition error_markup (prefix : string) (e : exn) : string :=
  "[bold red]" ++ prefix ++ exn_str e ++ "[/bold red]".

(** The body of the loop after [user_input = input(...)]. *)
Definition chat_turn (user_input : string) : M GeminiClient loop_ctl unit :=
  (if str_in (strip (lower user_input)) (EXIT_COMMANDS config) then
     console_print "[bold blue]Goodbye![/bold blue]" ;;
     return_ Break
   else pure tt) ;;
  (if startswith (lower user_input) "file " then
     let file_path := strip (slice_from 5 user_input) in
     (if negb (str_truthy file_path) then
        console_print "[bold red]Error: Please specify a file name[/bold red]" ;;
        return_ Continue
      else pure tt) ;;
     found <- os_path_exists file_path ;;
     (if negb found then
        console_print ("[bold red]Error: File not found: " ++ file_path ++ "[/bold red]") ;;
        return_ Continue
      else pure tt) ;;
     try_except
       (response <- process_file file_path ;;
        display_response response)
       is_Exception
       (fun e => console_print (error_markup "Error: " e)) ;;
     return_ Continue
   else pure tt) ;;
  try_except
    (response <- send_message user_input ;;
     display_response response)
    is_Exception
    (fun e => console_print (error_markup "Error: " e)).

(** [while True:] over the lines standard input still holds; [input]
    raises [EOFError] when there is none left. *)
Fixpoint chat_loop {R} (stdin : list string) : M GeminiClient R unit :=
  emit (EvInput (USER_PROMPT_PREFIX config)) ;;
  match stdin with
  | [] => raise (mkExn EOFError "EOF when reading a line")
  | user_input :: rest =>
      ctl <- call Continue (chat_turn user_input) ;;
      match ctl with
      | Break => pure tt
      | Continue => chat_loop rest
      end
  end.

(** The [chat] command. *)
Definition chat (api_key_opt : option string) (model : string)
    (system_prompt_opt : option string) (stdin : list string) : M unit unit unit :=
  (if opt_truthy api_key_opt
   then emit (EvSetEnv "GEMINI_API_KEY" (match api_key_opt with Some k => k | None => "" end))
   else pure tt) ;;
  (if negb (model =? GEMINI_MODEL config)%string
   then emit (EvSetEnv "GEMINI_MODEL" model)
   else pure tt) ;;
  (if opt_truthy system_prompt_opt
   then emit (EvSetEnv "SYSTEM_PROMPT" (match system_prompt_opt with Some p => p | None => "" end))
   else pure tt) ;;
  try_excepts
    (client <- GeminiClient_init None None ;;
     display_welcome ;;
     console_print "[dim]Type 'file <filename>' to attach a file to your message.[/dim]" ;;
     console_print "[dim]Type 'help' for more information.[/dim]" ;;
     console_print "---" ;;
     on_object client (chat_loop stdin) ;;
     pure tt)
    [ (is_ValueError,
       fun e => console_print (error_markup "Error: " e) ;; sys_exit 1);
      (is_Exception,
       fun e => console_print (error_markup "Unexpected error: " e) ;; sys_exit 1) ].

End Client.

(** The status the process ends with: 0 when the command returns,
    the argument of [sys.exit], 1 for an exception nobody caught. *)
Definition exit_code {R A} (r : res R A) : Z :=
  match r with
  | Val _ | Ret _ => 0
  | Exc _ => 1
  | Exit c => c
  end.

(** Running a computation: the events, the final object, the result. *)
Definition events_of {S R A} (x : list event * S * res R A) : list event := fst (fst x).
Definition state_of {S R A} (x : list event * S * res R A) : S := snd (fst x).
Definition result_of {S R A} (x : list event * S * res R A) : res R A := snd x.

(** Putting the events of what came before in front of an outcome. *)
Definition after {S R A} (t : list event) (x : list event * S * res R A)
  : list event * S * res R A :=
  match x with (t', s, r) => ((t ++ t')%list, s, r) end.

Definition no_http (t : list event) : Prop :=
  Forall (fun ev => is_http ev = false) t.

Definition no_backend (t : list event) : Prop :=
  Forall (fun ev => is_backend ev = false) t.

(** The GET [authenticate_voxco] sends. *)
Definition auth_request (username password : string) : http_request :=
  mkRequest GET
    ("https://beta7.voxco.com/api/authentication/user?userInfo.username="
     ++ username ++ "&userInfo.password=" ++ password) [] None.

(** What [display_response text] shows. *)
Definition display_event (config : Config) (text : string) : event :=
  if ENABLE_RICH_FORMATTING config
  then EvMarkdown text
  else EvPrint (AI_RESPONSE_PREFIX config ++ text).

(** The three events of a [send_message] whose backend call raised [e]. *)
Definition failed_turn_events (self : GeminiClient) (message : string) (e : exn)
  : list event :=
  [EvLog (logger self) INFO "USER: {}" [ArgStr message];
   EvBackend message;
   EvLog (logger self) ERROR ("Error in processing: " ++ exn_str e) []].

(** The line the shell prints on an exit phrase. *)
Definition farewell : event := EvConsole "[bold blue]Goodbye![/bold blue]".

(** What the shell shows when [e] is caught around a turn. *)
Definition turn_error (e : exn) : event := EvConsole (error_markup "Error: " e).

(** The path a [file ] line names. *)
Definition file_path_of (line : string) : string := strip (slice_from 5 line).

(** What the shell does with a [file ] line whose path is empty or
    does not exist. *)
Definition file_error_events (file_path : string) : list event :=
  if str_truthy file_path
  then [EvPathExists file_path;
        EvConsole ("[bold red]Error: File not found: " ++ file_path ++ "[/bold red]")]
  else [EvConsole "[bold red]Error: Please specify a file name[/bold red]"].

(** ** Sample inputs *)

(** A configuration in which a file command is also an exit phrase. *)
Definition file_exit_config : Config :=
  mkConfig (Some "secret") "gemini-2.0-flash" None false "AI: " "You: "
           ["exit"; "file away"].


Definition sample_config : Config :=
  mkConfig (Some "secret") "gemini-2.0-flash" (Some "You help with surveys.")
           false "AI: " "You: " ["exit"; "quit"; "bye"].

Definition keyless_config : Config :=
  mkConfig None "gemini-2.0-flash" None false "AI: " "You: " ["exit"; "quit"; "bye"].

Definition server_unavailable (req : http_request) : http_result :=
  HttpResponse 503 "Service Unavailable" None.

Definition server_multiple_choices (req : http_request) : http_result :=
  HttpResponse 300 "Multiple Choices" (Some (PyDict [("Token", PyStr "abc")])).

Definition server_no_token (req : http_request) : http_result :=
  HttpResponse 200 "OK" (Some (PyDict [("Message", PyStr "welcome")])).

Definition server_json_list (req : http_request) : http_result :=
  HttpResponse 200 "OK" (Some (PyList [])).

Definition server_token (req : http_request) : http_result :=
  HttpResponse 200 "OK" (Some (PyDict [("Token", PyStr "abc")])).

Definition server_empty_token (req : http_request) : http_result :=
  HttpResponse 200 "OK" (Some (PyDict [("Token", PyStr "")])).

Definition backend_down (c : Chat) (message : string) : backend_result :=
  BackendRaises (mkExn (OtherException "ServerError") "503 UNAVAILABLE").

Definition backend_echo (c : Chat) (message : string) : backend_result :=
  BackendReplies ("You said: " ++ message)
                 [("user", message); ("model", "You said: " ++ message)].

Definition sample_world (h : http_request -> http_result)
    (b : Chat -> string -> backend_result) : World :=
  mkWorld h (fun p => (p =? "survey.json")%string) (fun _ => None)
          (fun _ _ _ => None) b (fun style => style) (fun _ => None).

Definition sample_client : GeminiClient :=
  mkClient "GeminiChat" (Some "secret") (Some "You help with surveys.") (Some "secret")
           (mkChat "gemini-2.0-flash" (Some "You help with surveys.") ai_functions [])
           PyNone.

(** A client that already holds a token. *)
Definition client_with_token : GeminiClient :=
  set_voxco_token sample_client (PyStr "old-token").

(** A world in which the SDK cannot build its client. *)
Definition sdk_failing_world : World :=
  mkWorld server_token (fun _ => false)
          (fun _ => Some (mkExn (OtherException "RuntimeError") "no transport"))
          (fun _ _ _ => None) backend_echo (fun style => style) (fun _ => None).

(** ** Vocabulary for the behaviour of whole calls *)

(** The HTTP requests a run sent, in order. *)
Definition http_requests (t : list event) : list http_request :=
  flat_map (fun ev => match ev with EvHttp req => [req] | _ => [] end) t.

(** The messages a run handed to the chat backend, in order. *)
Definition sent_messages (t : list event) : list string :=
  flat_map (fun ev => match ev with EvBackend message => [message] | _ => [] end) t.

(** The GET [load_survey] sends for a token and a survey. *)
Definition export_request (token : string) (survey_id : Z) : http_request :=
  mkRequest GET
    ("https://beta7.voxco.com/api/survey/export/json/" ++ str_of_int survey_id
     ++ "?deployed=false&modality=Master")
    [("Authorization", "Client " ++ token)] None.

(** The statuses [raise_for_status] raises on. *)
Definition is_error_status (status : Z) : bool :=
  (400 <=? status) && (status <? 600).

(** The text of the [HTTPError] for an error status. *)
Definition http_error_text (url : string) (status : Z) (reason : string) : string :=
  if status <? 500
  then str_of_int status ++ " Client Error: " ++ reason ++ " for url: " ++ url
  else str_of_int status ++ " Server Error: " ++ reason ++ " for url: " ++ url.

(** What one GET comes to after [raise_for_status] and
    [response.json()]: the parsed body, or the text of the
    [RequestException] that was raised. *)
Definition fetched_json (h : http_request -> http_result) (req : http_request)
  : pyval + string :=
  match h req with
  | TransportError msg => inr msg
  | HttpResponse status reason body =>
      if is_error_status status then inr (http_error_text (req_url req) status reason)
      else match body with
           | Some v => inl v
           | None => inr "Expecting value: line 1 column 1 (char 0)"
           end
  end.

(** The text of the [AttributeError] for [v.get]. *)
Definition no_get_error (v : pyval) : exn :=
  mkExn AttributeError ("'" ++ type_name v ++ "' object has no attribute 'get'").

Definition is_dict (v : pyval) : bool :=
  match v with PyDict _ => true | _ => false end.

(** The client after a reply: the turns the SDK recorded are added to
    the conversation. *)
Definition with_turns (self : GeminiClient) (recorded : list (string * string))
  : GeminiClient :=
  set_chat self
    (mkChat (chat_model (self_chat self)) (chat_system_instruction (self_chat self))
       (chat_tools (self_chat self))
       (chat_history (self_chat self) ++ recorded)%list).

(** [later] is [earlier] with, at most, turns added to the
    conversation: every other attribute is the same. *)
Definition same_session (earlier later : GeminiClient) : Prop :=
  logger later = logger earlier
  /\ api_key later = api_key earlier
  /\ system_prompt later = system_prompt earlier
  /\ client later = client earlier
  /\ voxco_token later = voxco_token earlier
  /\ chat_model (self_chat later) = chat_model (self_chat earlier)
  /\ chat_system_instruction (self_chat later) = chat_system_instruction (self_chat earlier)
  /\ chat_tools (self_chat later) = chat_tools (self_chat earlier)
  /\ exists turns,
       chat_history (self_chat later) = (chat_history (self_chat earlier) ++ turns)%list.

(** The client a successful [GeminiClient(...)] builds. *)
Definition fresh_client (config : Config) (key system_prompt_used : option string)
  : GeminiClient :=
  mkClient "GeminiChat" key system_prompt_used key
           (mkChat (GEMINI_MODEL config) system_prompt_used ai_functions []) PyNone.

(** The two tests the loop makes on a line. *)
Definition is_exit_line (config : Config) (line : string) : bool :=
  str_in (strip (lower line)) (EXIT_COMMANDS config).

Definition is_file_line (line : string) : bool :=
  startswith (lower line) "file ".

(** The lines of standard input that go to [send_message]: those
    before the first exit phrase that are not file commands. *)
Fixpoint forwarded (config : Config) (stdin : list string) : list string :=
  match stdin with
  | [] => []
  | line :: rest =>
      if is_exit_line config line then []
      else if is_file_line line then forwarded config rest
      else line :: forwarded config rest
  end.

(** Whether some line of standard input is an exit phrase. *)
Definition reaches_exit (config : Config) (stdin : list string) : bool :=
  existsb (is_exit_line config) stdin.

(** Whether [GeminiClient()] succeeds: a key in the configuration,
    and an SDK that builds the client and the chat. *)
Definition construction_ok (config : Config) (world : World) : bool :=
  opt_truthy (GEMINI_API_KEY config)
  && match genai_Client world (py_or None (GEMINI_API_KEY config)) with
     | None =>
         match chats_create world (GEMINI_MODEL config)
                 (py_or None (SYSTEM_PROMPT config)) ai_functions with
         | None => true
         | Some _ => false
         end
     | Some _ => false
     end.

(** A string of white space only. *)
Fixpoint all_space (s : string) : bool :=
  match s with
  | EmptyString => true
  | String c rest => is_space c && all_space rest
  end.

(** The markup of the shell's message for a path that does not
    exist. *)
Definition not_found_markup (file_path : string) : string :=
  "[bold red]Error: File not found: " ++ file_path ++ "[/bold red]".

(** What [console.print] raises for a markup string in a world. *)
Definition print_error (world : World) (markup : string) : option exn :=
  markup_error (style_normalize world) (meta_params_error world) markup.

(** What one pass through the loop body comes to for a line: its
    events, the client afterwards, and how the pass ends. *)
Definition turn_outcome {R : Type} (config : Config) (world : World) (line : string)
    (self : GeminiClient) : list event * GeminiClient * res R loop_ctl :=
  if is_exit_line config line then ([farewell], self, Val Break)
  else if is_file_line line then
    if negb (str_truthy (file_path_of line)) then
      ([EvConsole "[bold red]Error: Please specify a file name[/bold red]"],
       self, Val Continue)
    else if path_exists world (file_path_of line) then
      ([EvPathExists (file_path_of line); turn_error no_process_file], self, Val Continue)
    else
      match print_error world (not_found_markup (file_path_of line)) with
      | Some e => ([EvPathExists (file_path_of line)], self, Exc e)
      | None =>
          ([EvPathExists (file_path_of line);
            EvConsole (not_found_markup (file_path_of line))], self, Val Continue)
      end
  else
    match backend world (self_chat self) line with
    | BackendRaises e =>
        ((failed_turn_events self line e
          ++ [display_event config ("Error in processing: " ++ exn_str e)])%list,
         self, Val Continue)
    | BackendReplies text recorded =>
        ([EvLog (logger self) INFO "USER: {}" [ArgStr line];
          EvBackend line;
          EvLog (logger self) INFO "AI: {}" [ArgStr text];
          display_event config text],
         with_turns self recorded, Val Continue)
    end.

(** What [input] raises when standard input has no line left. *)
Definition eof_error : exn := mkExn EOFError "EOF when reading a line".

(** Unfolding the combinators down to the triples they compute. *)
Ltac unfold_monad :=
  unfold call_total, call, try_except, try_excepts, bind, on_object,
    emit, pure, return_, raise, sys_exit, get_self, put_self,
    logging_info, logging_error in *.

(** * Properties *)

(** ** Sequencing and handlers *)

Lemma bind_val {S R A B : Type} (m : M S R A) (k : A -> M S R B)
    (s s' : S) (t : list event) (a : A) :
  m s = (t, s', Val a) -> bind m k s = after t (k a s').
Proof. intros H. unfold bind, after. rewrite H. reflexivity. Qed.

Lemma bind_exc {S R A B : Type} (m : M S R A) (k : A -> M S R B)
    (s s' : S) (t : list event) (e : exn) :
  m s = (t, s', Exc e) -> bind m k s = (t, s', Exc e).
Proof. intros H. unfold bind. rewrite H. reflexivity. Qed.

Lemma try_excepts_exc {S R A : Type} (body : M S R A)
    (clauses : list (except_clause S R A)) (s s' : S) (t : list event) (e : exn)
    (handler : exn -> M S R A) :
  body s = (t, s', Exc e) ->
  find_clause clauses e = Some handler ->
  try_excepts body clauses s = after t (handler e s').
Proof. intros Hb Hc. unfold try_excepts, after. rewrite Hb, Hc. reflexivity. Qed.

Lemma after_nil {S R A : Type} (x : list event * S * res R A) : after [] x = x.
Proof. destruct x as [[t s] r]. reflexivity. Qed.

Lemma result_of_after {S R A : Type} (t : list event) (x : list event * S * res R A) :
  result_of (after t x) = result_of x.
Proof. destruct x as [[t' s] r]. reflexivity. Qed.

Lemma state_of_after {S R A : Type} (t : list event) (x : list event * S * res R A) :
  state_of (after t x) = state_of x.
Proof. destruct x as [[t' s] r]. reflexivity. Qed.

Lemma events_of_after {S R A : Type} (t : list event) (x : list event * S * res R A) :
  events_of (after t x) = (t ++ events_of x)%list.
Proof. destruct x as [[t' s] r]. reflexivity. Qed.

(** ** Console markup *)

Lemma close_error_no_parameters (meta : string -> option string) (name : string) :
  close_error meta (mkTag name None) = None.
Proof. unfold close_error, startswith. cbn. destruct (String.prefix "@" name); reflexivity. Qed.

(** A string whose tags are written out renders when each closing
    tag repeats the text of the tag it closes. *)
Ltac fixed_markup :=
  unfold print_error, markup_error; cbn;
  rewrite ?String.eqb_refl; cbn;
  rewrite ?close_error_no_parameters;
  repeat match goal with
         | |- context [startswith ?a ?b] => destruct (startswith a b)
         | |- context [String.prefix ?a ?b] => destruct (String.prefix a b)
         end;
  reflexivity.

Lemma print_farewell (world : World) :
  print_error world "[bold blue]Goodbye![/bold blue]" = None.
Proof. fixed_markup. Qed.

Lemma print_specify_file (world : World) :
  print_error world "[bold red]Error: Please specify a file name[/bold red]" = None.
Proof. fixed_markup. Qed.

Lemma print_no_process_file (world : World) :
  print_error world (error_markup "Error: " no_process_file) = None.
Proof. fixed_markup. Qed.

Lemma print_credential_error (world : World) :
  print_error world (error_markup "Error: " credential_error) = None.
Proof. fixed_markup. Qed.

(** Text without an opening bracket holds no tag. *)
Lemma markup_tags_plain (body rest : string) :
  has_char "[" body = false ->
  forall pos slashes : nat,
    exists slashes',
      markup_tags (body ++ rest) pos slashes false
      = markup_tags rest (pos + String.length body)%nat slashes' false.
Proof.
  induction body as [|c body IH]; intros Hplain pos slashes.
  - exists slashes. cbn. now rewrite Nat.add_0_r.
  - cbn in Hplain. apply orb_false_elim in Hplain as [Hc Hbody].
    cbn [append markup_tags String.length].
    assert (Hc' : Ascii.eqb c "[" = false) by (rewrite Ascii.eqb_sym; exact Hc).
    rewrite Hc'.
    destruct (Ascii.eqb c "092").
    + destruct (IH Hbody (S pos) (S slashes)) as [k Hk]. exists k.
      rewrite Hk. now rewrite Nat.add_succ_r.
    + destruct (IH Hbody (S pos) O) as [k Hk]. exists k.
      rewrite Hk. now rewrite Nat.add_succ_r.
Qed.

(** A message in bold red around text without an opening bracket
    renders: the closing tag either closes the opening one or, after
    an odd number of backslashes, is escaped. *)
Lemma print_bold_red_plain (world : World) (text : string) :
  has_char "[" text = false ->
  print_error world ("[bold red]" ++ text ++ "[/bold red]") = None.
Proof.
  intros Hplain. unfold print_error, markup_error.
  change ("[bold red]" ++ text ++ "[/bold red]")
    with (String "[" ("bold red]" ++ (text ++ "[/bold red]"))).
  cbn [markup_tags Ascii.eqb Bool.eqb].
  change (tag_text_at ("bold red]" ++ text ++ "[/bold red]")) with (Some "bold red").
  cbn [Nat.even app].
  change (markup_tags ("bold red]" ++ text ++ "[/bold red]") 1 0 true)
    with (markup_tags (text ++ "[/bold red]") 10 0 false).
  destruct (markup_tags_plain text "[/bold red]" Hplain 10 0) as [k Hk].
  rewrite Hk.
  cbn [markup_tags Ascii.eqb Bool.eqb].
  change (tag_text_at "/bold red]") with (Some "/bold red").
  destruct (Nat.even k); cbn; [|reflexivity].
  rewrite String.eqb_refl. cbn. rewrite close_error_no_parameters. reflexivity.
Qed.

Lemma has_char_app (c : ascii) (a b : string) :
  has_char c (a ++ b) = (has_char c a || has_char c b)%bool.
Proof. induction a as [|d a IH]; cbn; [reflexivity | now rewrite IH, orb_assoc]. Qed.

Lemma print_not_found_plain (world : World) (file_path : string) :
  has_char "[" file_path = false ->
  print_error world (not_found_markup file_path) = None.
Proof.
  intros Hplain. unfold not_found_markup.
  change ("[bold red]Error: File not found: " ++ file_path ++ "[/bold red]")
    with ("[bold red]" ++ ("Error: File not found: " ++ file_path) ++ "[/bold red]").
  apply print_bold_red_plain.
  rewrite has_char_app, Hplain. reflexivity.
Qed.

(** Whatever [console.print] raises is a [MarkupError]. *)
Lemma render_tags_class (normalize : string -> string) (meta : string -> option string)
    (tags : list (nat * string)) :
  forall (stack : list Tag) (e : exn),
    render_tags normalize meta tags stack = Some e -> exn_cls e = MarkupError.
Proof.
  assert (Hclose : forall open_tag e,
             close_error meta open_tag = Some e -> exn_cls e = MarkupError).
  { intros open_tag e. unfold close_error.
    destruct (startswith (tag_name open_tag) "@"); [|discriminate].
    destruct (tag_parameters open_tag) as [parameters|]; [|discriminate].
    destruct (str_truthy parameters); [|discriminate].
    destruct (meta parameters); cbn; [|discriminate].
    intros H. injection H as <-. reflexivity. }
  induction tags as [|[position text] more IH]; intros stack e; [discriminate|].
  cbn [render_tags].
  destruct (partition_equals text) as [name parameters]. cbn [tag_name tag_parameters].
  destruct (startswith name "/").
  - destruct (str_truthy (strip (slice_from 1 name))).
    + destruct (pop_style stack _) as [[open_tag stack']|].
      * destruct (close_error meta open_tag) as [e'|] eqn:Hc.
        -- intros H. injection H as <-. exact (Hclose _ _ Hc).
        -- apply IH.
      * intros H. injection H as <-. reflexivity.
    + destruct stack as [|open_tag stack'].
      * intros H. injection H as <-. reflexivity.
      * destruct (close_error meta open_tag) as [e'|] eqn:Hc.
        -- intros H. injection H as <-. exact (Hclose _ _ Hc).
        -- apply IH.
  - apply IH.
Qed.

Lemma print_error_class (world : World) (markup : string) (e : exn) :
  print_error world markup = Some e -> exn_cls e = MarkupError.
Proof. unfold print_error, markup_error. apply render_tags_class. Qed.

Lemma console_print_renders (world : World) (S R : Type) (markup : string) :
  print_error world markup = None ->
  console_print (S := S) (R := R) world markup = emit (EvConsole markup).
Proof. unfold console_print, print_error. intros ->. reflexivity. Qed.

Lemma console_print_raises (world : World) (S R : Type) (markup : string) (e : exn) :
  print_error world markup = Some e ->
  console_print (S := S) (R := R) world markup = raise e.
Proof. unfold console_print, print_error. intros ->. reflexivity. Qed.

Lemma console_print_farewell (world : World) (S R : Type) :
  console_print (S := S) (R := R) world "[bold blue]Goodbye![/bold blue]"
  = emit farewell.
Proof. apply console_print_renders, print_farewell. Qed.



(** ** The survey adapter *)

(** C1: whatever the token, the survey id, the document and the
    network, [save_survey] returns [True] and sends no HTTP request:
    the [return True] on the second line of its body ends the call
    before the token check and the POST. *)
Theorem save_survey_always_true :
  forall (h : http_request -> http_result) (S R : Type)
         (token : option string) (survey_id : Z) (survey_data : string) (s : S),
    save_survey (R := R) h token survey_id survey_data s
    = ([EvLog "root" INFO "Importing survey data for survey ID: {} survey Data: {}"
          [ArgInt survey_id; ArgStr survey_data]], s, Val (PyBool true))
    /\ no_http (events_of (save_survey (R := R) h token survey_id survey_data s)).
Proof.
  intros. split.
  - reflexivity.
  - cbn. repeat constructor.
Qed.

(** C2: with a token that is [None] or empty, [load_survey] returns
    [None] after logging the missing token, and sends no HTTP
    request, whatever the survey id and the network. *)
Theorem load_survey_without_token :
  forall (h : http_request -> http_result) (S R : Type)
         (token : option string) (survey_id : Z) (s : S),
    opt_truthy token = false ->
    load_survey (R := R) h token survey_id s
    = ([EvLog "root" INFO "Exporting survey data for survey ID: {}" [ArgInt survey_id];
        EvLog "root" ERROR "No authentication token provided" []], s, Val PyNone)
    /\ no_http (events_of (load_survey (R := R) h token survey_id s)).
Proof.
  intros h S R token survey_id s Htok.
  assert (E : load_survey (R := R) h token survey_id s
    = ([EvLog "root" INFO "Exporting survey data for survey ID: {}" [ArgInt survey_id];
        EvLog "root" ERROR "No authentication token provided" []], s, Val PyNone)).
  { unfold load_survey, load_survey_body, call_total, bind. cbn.
    rewrite Htok. reflexivity. }
  split; [exact E|]. rewrite E. cbn. repeat constructor.
Qed.

Lemma load_survey_without_token_witness :
  load_survey (R := unit) server_token None 42 tt
  = ([EvLog "root" INFO "Exporting survey data for survey ID: {}" [ArgInt 42];
      EvLog "root" ERROR "No authentication token provided" []], tt, Val PyNone)
  /\ no_http (events_of (load_survey (R := unit) server_token None 42 tt)).
Proof.
  apply (load_survey_without_token server_token unit unit None 42 tt).
  reflexivity.
Defined.

Lemma dict_get_absent (entries : list (string * pyval)) (key : string) :
  ~ In key (map fst entries) -> dict_get entries key = PyNone.
Proof.
  induction entries as [|[k v] rest IH]; intros Hnot; [reflexivity|].
  cbn in *. destruct (String.eqb_spec k key) as [->|Hne].
  - exfalso. apply Hnot. now left.
  - apply IH. intros Hin. apply Hnot. now right.
Qed.

Lemma raise_for_status_error (S R : Type) (r : response) (s : S) :
  400 <= resp_status r < 600 ->
  exists msg, raise_for_status (R := R) r s = ([], s, Exc (mkExn RequestsHTTPError msg)).
Proof.
  intros [Hlo Hhi]. unfold raise_for_status.
  destruct (resp_status r <? 500) eqn:E500.
  - replace (400 <=? resp_status r) with true by (symmetry; apply Z.leb_le; lia).
    cbn. eexists. reflexivity.
  - replace (400 <=? resp_status r) with true by (symmetry; apply Z.leb_le; lia).
    replace (500 <=? resp_status r) with true
      by (symmetry; apply Z.leb_le; apply Z.ltb_ge in E500; lia).
    replace (resp_status r <? 600) with true by (symmetry; apply Z.ltb_lt; lia).
    cbn. eexists. reflexivity.
Qed.

Lemma raise_for_status_ok (S R : Type) (r : response) (s : S) :
  resp_status r < 400 \/ 600 <= resp_status r ->
  raise_for_status (R := R) r s = ([], s, Val tt).
Proof.
  intros H. unfold raise_for_status.
  destruct H as [H|H].
  - replace (400 <=? resp_status r) with false by (symmetry; apply Z.leb_gt; lia).
    replace (500 <=? resp_status r) with false by (symmetry; apply Z.leb_gt; lia).
    reflexivity.
  - replace (resp_status r <? 500) with false by (symmetry; apply Z.ltb_ge; lia).
    replace (resp_status r <? 600) with false by (symmetry; apply Z.ltb_ge; lia).
    rewrite !andb_false_r. reflexivity.
Qed.

(** C3, as the code has it: when the request fails in transport, or
    the server answers with a status from 400 to 599 (the statuses
    [raise_for_status] raises on), [authenticate_voxco] logs the error
    and returns [None]; no exception reaches the caller. *)
Theorem authenticate_voxco_failure_returns_none :
  forall (h : http_request -> http_result) (S R : Type)
         (username password : string) (s : S),
    (exists msg, h (auth_request username password) = TransportError msg)
    \/ (exists status reason body,
          h (auth_request username password) = HttpResponse status reason body
          /\ 400 <= status < 600) ->
    exists msg,
      authenticate_voxco (R := R) h username password s
      = ([EvLog "root" INFO "Authenticating with Voxco API for user: {}" [ArgStr username];
          EvHttp (auth_request username password);
          EvLog "root" ERROR "Authentication error: {}" [ArgStr msg]],
         s, Val PyNone).
Proof.
  intros h S R username password s [[msg Hh]|(status & reason & body & Hh & Hst)].
  - exists msg.
    unfold authenticate_voxco, authenticate_voxco_body, call_total, try_except,
      try_excepts, bind, requests_get, requests_send.
    unfold auth_request in *. cbn in *. rewrite Hh. reflexivity.
  - destruct (raise_for_status_error S pyval
                (mkResponse (req_url (auth_request username password)) status reason body)
                s Hst) as [msg Hr].
    exists msg.
    unfold authenticate_voxco, authenticate_voxco_body, call_total, try_except,
      try_excepts, bind, requests_get, requests_send.
    unfold auth_request in *. cbn in *. rewrite Hh. cbn.
    rewrite Hr. reflexivity.
Qed.

Lemma authenticate_voxco_failure_returns_none_witness :
  (400 <= 503 < 600)
  /\ exists msg,
      authenticate_voxco (R := unit) server_unavailable "ann" "pw" tt
      = ([EvLog "root" INFO "Authenticating with Voxco API for user: {}" [ArgStr "ann"];
          EvHttp (auth_request "ann" "pw");
          EvLog "root" ERROR "Authentication error: {}" [ArgStr msg]],
         tt, Val PyNone).
Proof.
  split; [lia|].
  apply (authenticate_voxco_failure_returns_none server_unavailable unit unit "ann" "pw" tt).
  right. exists 503, "Service Unavailable", None. split; [reflexivity | lia].
Defined.

(** C3 as worded fails for a status outside 200..299 that is not an
    error status: the answer 300 with a JSON body carrying a token
    passes [raise_for_status], and the token is returned. *)
Lemma authenticate_voxco_status_300_returns_token :
  (exists reason body,
      server_multiple_choices (auth_request "ann" "pw") = HttpResponse 300 reason body)
  /\ ~ (200 <= 300 < 300)
  /\ result_of (authenticate_voxco (R := unit) server_multiple_choices "ann" "pw" tt)
     = Val (PyStr "abc")
  /\ result_of (authenticate_voxco (R := unit) server_multiple_choices "ann" "pw" tt)
     <> Val PyNone.
Proof.
  split; [do 2 eexists; reflexivity|].
  split; [lia|].
  split; [reflexivity|].
  vm_compute. discriminate.
Qed.

(** C9: when the server answers 2xx with a JSON object that has no
    ["Token"] member, [authenticate_voxco] returns [None] and raises
    nothing: [dict.get] gives [None] for the missing key. *)
Theorem authenticate_voxco_without_token_field :
  forall (h : http_request -> http_result) (S R : Type)
         (username password : string) (s : S)
         (status : Z) (reason : string) (entries : list (string * pyval)),
    h (auth_request username password)
    = HttpResponse status reason (Some (PyDict entries)) ->
    200 <= status < 300 ->
    ~ In "Token" (map fst entries) ->
    authenticate_voxco (R := R) h username password s
    = ([EvLog "root" INFO "Authenticating with Voxco API for user: {}" [ArgStr username];
        EvHttp (auth_request username password);
        EvLog "root" INFO "Authentication successful. Token: {}" [ArgVal PyNone]],
       s, Val PyNone).
Proof.
  intros h S R username password s status reason entries Hh Hst Hnot.
  pose proof (raise_for_status_ok S pyval
                (mkResponse (req_url (auth_request username password)) status reason
                   (Some (PyDict entries))) s) as Hr.
  cbn in Hr. specialize (Hr ltac:(lia)).
  unfold authenticate_voxco, authenticate_voxco_body, call_total, try_except,
    try_excepts, bind, requests_get, requests_send.
  unfold auth_request in *. cbn in Hh, Hr |- *. rewrite Hh. cbn.
  rewrite Hr. cbn. rewrite (dict_get_absent entries "Token" Hnot). reflexivity.
Qed.

Lemma authenticate_voxco_without_token_field_witness :
  (200 <= 200 < 300)
  /\ ~ In "Token" (map fst [("Message", PyStr "welcome")])
  /\ authenticate_voxco (R := unit) server_no_token "ann" "pw" tt
     = ([EvLog "root" INFO "Authenticating with Voxco API for user: {}" [ArgStr "ann"];
         EvHttp (auth_request "ann" "pw");
         EvLog "root" INFO "Authentication successful. Token: {}" [ArgVal PyNone]],
        tt, Val PyNone).
Proof.
  assert (Hnot : ~ In "Token" (map fst [("Message", PyStr "welcome")])).
  { cbn. intros [H|[]]. discriminate H. }
  split; [lia|]. split; [exact Hnot|].
  apply (authenticate_voxco_without_token_field server_no_token unit unit "ann" "pw" tt
           200 "OK" [("Message", PyStr "welcome")]).
  - reflexivity.
  - lia.
  - exact Hnot.
Defined.

(** ** The chat session *)

(** C10: [authenticate_with_voxco] returns what [authenticate_voxco]
    returned; it stores that token in [voxco_token] exactly when the
    token is truthy: afterwards [voxco_token] is the token returned
    when that is truthy, and what it was before otherwise (a [None]
    result, or an exception passing through), in which case the whole
    client is as it was.  No field other than [voxco_token] is ever
    touched. *)
Theorem authenticate_with_voxco_frame :
  forall (world : World) (R : Type) (username password : string) (self : GeminiClient),
    let auth := authenticate_voxco (R := R) (http world) username password self in
    let out := authenticate_with_voxco (R := R) world username password self in
    result_of out = result_of auth
    /\ voxco_token (state_of out)
       = match result_of auth with
         | Val token => if truthy token then token else voxco_token self
         | _ => voxco_token self
         end
    /\ state_of out
       = match result_of auth with
         | Val token => if truthy token then set_voxco_token self token else self
         | _ => self
         end
    /\ logger (state_of out) = logger self
    /\ api_key (state_of out) = api_key self
    /\ system_prompt (state_of out) = system_prompt self
    /\ client (state_of out) = client self
    /\ self_chat (state_of out) = self_chat self.
Proof.
  intros world R username password self.
  unfold authenticate_with_voxco, authenticate_with_voxco_body, logger_info, logger_error,
    authenticate_voxco, authenticate_voxco_body, requests_get, requests_send,
    raise_for_status, response_json, py_get, result_of, state_of.
  unfold_monad. cbn.
  destruct (http world _) as [msg|status reason body]; cbn.
  - repeat split; reflexivity.
  - destruct ((400 <=? status) && (status <? 500))%bool; cbn;
      [repeat split; reflexivity|].
    destruct ((500 <=? status) && (status <? 600))%bool; cbn;
      [repeat split; reflexivity|].
    destruct body as [data|]; cbn; [|repeat split; reflexivity].
    destruct data; cbn; try (repeat split; (reflexivity || discriminate)).
    destruct (truthy (dict_get entries "Token")) eqn:Htruthy; cbn;
      repeat split; reflexivity.
Qed.

Lemma authenticate_with_voxco_frame_witness :
  voxco_token sample_client = PyNone
  /\ result_of (authenticate_with_voxco (R := unit) (sample_world server_token backend_echo)
                  "ann" "pw" sample_client)
     = Val (PyStr "abc")
  /\ voxco_token (state_of (authenticate_with_voxco (R := unit)
                              (sample_world server_token backend_echo)
                              "ann" "pw" sample_client))
     = PyStr "abc"
  /\ voxco_token (state_of (authenticate_with_voxco (R := unit)
                              (sample_world server_empty_token backend_echo)
                              "ann" "pw" client_with_token))
     = PyStr "old-token".
Proof.
  destruct (authenticate_with_voxco_frame (sample_world server_token backend_echo) unit
              "ann" "pw" sample_client) as (Hres & Htoken & _).
  destruct (authenticate_with_voxco_frame (sample_world server_empty_token backend_echo)
              unit "ann" "pw" client_with_token) as (_ & Hkept & _).
  split; [reflexivity|]. split; [rewrite Hres; reflexivity|].
  split; [rewrite Htoken; reflexivity | rewrite Hkept; reflexivity].
Defined.

Lemma chat_loop_cons (config : Config) (world : World) (R : Type)
    (line : string) (rest : list string) :
  chat_loop (R := R) config world (line :: rest)
  = (emit (EvInput (USER_PROMPT_PREFIX config)) ;;
     ctl <- call Continue (chat_turn config world line) ;;
     match ctl with
     | Break => pure tt
     | Continue => chat_loop config world rest
     end).
Proof. reflexivity. Qed.

Lemma chat_loop_prompts_first (config : Config) (world : World) (R : Type)
    (stdin : list string) (self : GeminiClient) :
  exists t,
    events_of (chat_loop (R := R) config world stdin self)
    = EvInput (USER_PROMPT_PREFIX config) :: t.
Proof.
  destruct stdin as [|line rest]; cbn; unfold bind, emit; cbn.
  - eexists. reflexivity.
  - destruct (call Continue (chat_turn config world line) self) as [[t s'] [[]| | |]];
      cbn; try (eexists; reflexivity).
    destruct (chat_loop config world rest s') as [[t' s''] r]; cbn.
    eexists. reflexivity.
Qed.

(** C7: when the backend call inside [send_message] raises [e], the
    method returns the text "Error in processing: " followed by
    [str(e)] and raises nothing, leaving the client as it was; the
    shell displays that text as the reply and goes on to prompt for
    the next line. *)
Theorem send_message_error_becomes_reply :
  forall (config : Config) (world : World) (R : Type)
         (message : string) (self : GeminiClient) (e : exn),
    backend world (self_chat self) message = BackendRaises e ->
    let reply := "Error in processing: " ++ exn_str e in
    send_message (R := R) world message self
    = (failed_turn_events self message e, self, Val reply)
    /\ forall rest : list string,
        str_in (strip (lower message)) (EXIT_COMMANDS config) = false ->
        startswith (lower message) "file " = false ->
        chat_loop (R := R) config world (message :: rest) self
        = after (EvInput (USER_PROMPT_PREFIX config)
                 :: failed_turn_events self message e ++ [display_event config reply])%list
                (chat_loop (R := R) config world rest self)
        /\ exists t,
            events_of (chat_loop (R := R) config world rest self)
            = EvInput (USER_PROMPT_PREFIX config) :: t.
Proof.
  intros config world R message self e Hraise reply.
  assert (Hsend : forall R', send_message (R := R') world message self
                  = (failed_turn_events self message e, self, Val reply)).
  { intros R'. unfold send_message, send_message_body, chat_send_message,
      logger_info, logger_error.
    unfold_monad. cbn. rewrite Hraise. reflexivity. }
  split; [apply Hsend|].
  intros rest Hexit Hfile. split; [|apply chat_loop_prompts_first].
  rewrite chat_loop_cons.
  remember (chat_loop config world rest) as next eqn:Hnext.
  unfold chat_turn. rewrite Hexit, Hfile.
  unfold try_except, try_excepts, call, bind, emit, pure.
  rewrite Hsend.
  unfold display_response, display_event, emit, after.
  destruct (ENABLE_RICH_FORMATTING config); cbn;
    destruct (next self) as [[t' s''] r]; reflexivity.
Qed.

Lemma send_message_error_becomes_reply_witness :
  backend (sample_world server_token backend_down) (self_chat sample_client) "hello"
  = BackendRaises (mkExn (OtherException "ServerError") "503 UNAVAILABLE")
  /\ send_message (R := unit) (sample_world server_token backend_down) "hello" sample_client
     = ([EvLog "GeminiChat" INFO "USER: {}" [ArgStr "hello"];
         EvBackend "hello";
         EvLog "GeminiChat" ERROR "Error in processing: 503 UNAVAILABLE" []],
        sample_client, Val "Error in processing: 503 UNAVAILABLE")
  /\ chat_loop (R := unit) sample_config (sample_world server_token backend_down)
       ["hello"; "exit"] sample_client
     = ([EvInput "You: ";
         EvLog "GeminiChat" INFO "USER: {}" [ArgStr "hello"];
         EvBackend "hello";
         EvLog "GeminiChat" ERROR "Error in processing: 503 UNAVAILABLE" [];
         EvPrint "AI: Error in processing: 503 UNAVAILABLE";
         EvInput "You: ";
         EvConsole "[bold blue]Goodbye![/bold blue]"],
        sample_client, Val tt).
Proof.
  pose proof (send_message_error_becomes_reply sample_config
                (sample_world server_token backend_down) unit "hello" sample_client
                (mkExn (OtherException "ServerError") "503 UNAVAILABLE") eq_refl)
    as [Hsend Hloop].
  split; [reflexivity|]. split; [exact Hsend|].
  destruct (Hloop ["exit"] eq_refl eq_refl) as [Hstep _].
  rewrite Hstep. reflexivity.
Defined.

(** ** The shell *)

(** C4: a line whose lower-cased, stripped form is one of
    [EXIT_COMMANDS] makes the loop print the farewell and end, with
    the client untouched and no further line read.  Nothing is sent to
    the chat backend or to the survey API.  The statement puts no
    condition on the rest of the line, so the exit test wins over the
    [file ] branch and over the regular message branch. *)
Theorem exit_phrase_ends_loop :
  forall (config : Config) (world : World) (R : Type)
         (line : string) (rest : list string) (self : GeminiClient),
    str_in (strip (lower line)) (EXIT_COMMANDS config) = true ->
    chat_loop (R := R) config world (line :: rest) self
    = ([EvInput (USER_PROMPT_PREFIX config); farewell], self, Val tt)
    /\ no_backend (events_of (chat_loop (R := R) config world (line :: rest) self))
    /\ no_http (events_of (chat_loop (R := R) config world (line :: rest) self)).
Proof.
  intros config world R line rest self Hexit.
  assert (E : chat_loop (R := R) config world (line :: rest) self
              = ([EvInput (USER_PROMPT_PREFIX config); farewell], self, Val tt)).
  { rewrite chat_loop_cons. unfold chat_turn. rewrite Hexit.
    rewrite console_print_farewell. reflexivity. }
  rewrite E. split; [reflexivity|]. split; repeat constructor.
Qed.

Lemma exit_phrase_ends_loop_witness :
  str_in (strip (lower "File Away  ")) (EXIT_COMMANDS file_exit_config) = true
  /\ startswith (lower "File Away  ") "file " = true
  /\ chat_loop (R := unit) file_exit_config (sample_world server_token backend_echo)
       ["File Away  "; "hello"] sample_client
     = ([EvInput "You: "; farewell], sample_client, Val tt).
Proof.
  split; [reflexivity|]. split; [reflexivity|].
  apply (exit_phrase_ends_loop file_exit_config (sample_world server_token backend_echo)
           unit "File Away  " ["hello"] sample_client).
  reflexivity.
Defined.

(** *** Facts about reversed strings *)

Lemma string_app_nil_r (a : string) : (a ++ "")%string = a.
Proof. induction a as [|c a IH]; cbn; [reflexivity | now rewrite IH]. Qed.

Lemma string_app_assoc (a b c : string) :
  ((a ++ b) ++ c)%string = (a ++ (b ++ c))%string.
Proof. induction a as [|x a IH]; cbn; [reflexivity | now rewrite IH]. Qed.

Lemma string_rev_app (a b : string) :
  string_rev (a ++ b) = (string_rev b ++ string_rev a)%string.
Proof.
  induction a as [|x a IH]; cbn.
  - now rewrite string_app_nil_r.
  - now rewrite IH, string_app_assoc.
Qed.

(** *** One pass of the loop *)

(** The whole of [send_message], by what the backend does. *)
Lemma send_message_run (world : World) (R : Type) (message : string)
    (self : GeminiClient) :
  send_message (R := R) world message self
  = match backend world (self_chat self) message with
    | BackendRaises e =>
        (failed_turn_events self message e, self,
         Val ("Error in processing: " ++ exn_str e))
    | BackendReplies text recorded =>
        ([EvLog (logger self) INFO "USER: {}" [ArgStr message];
          EvBackend message;
          EvLog (logger self) INFO "AI: {}" [ArgStr text]],
         with_turns self recorded, Val text)
    end.
Proof.
  unfold send_message, send_message_body, chat_send_message, logger_info, logger_error,
    with_turns, failed_turn_events.
  unfold_monad. cbn.
  destruct (backend world (self_chat self) message) as [e|text recorded]; reflexivity.
Qed.

(** One pass through the loop body, whatever the line. *)
Lemma chat_turn_run (config : Config) (world : World) (R : Type)
    (line : string) (self : GeminiClient) :
  call (R' := R) Continue (chat_turn config world line) self
  = turn_outcome config world line self.
Proof.
  unfold turn_outcome, chat_turn, is_exit_line, is_file_line.
  destruct (str_in (strip (lower line)) (EXIT_COMMANDS config)).
  { rewrite console_print_farewell. reflexivity. }
  destruct (startswith (lower line) "file ").
  - fold (file_path_of line). remember (file_path_of line) as fp eqn:Hfp.
    destruct (str_truthy fp); cbn [negb].
    + unfold os_path_exists.
      destruct (path_exists world fp) eqn:Hexists.
      * unfold process_file, try_except, try_excepts, call, bind, emit, pure, raise.
        cbn [negb find_clause is_Exception].
        rewrite (console_print_renders world _ _ _ (print_no_process_file world)).
        reflexivity.
      * fold (not_found_markup fp).
        destruct (print_error world (not_found_markup fp)) as [e|] eqn:Hprint.
        -- rewrite (console_print_raises world _ _ _ e Hprint).
           reflexivity.
        -- rewrite (console_print_renders world _ _ _ Hprint).
           reflexivity.
    + rewrite (console_print_renders world _ _ _ (print_specify_file world)).
      reflexivity.
  - unfold try_except, try_excepts, call, bind, pure.
    rewrite send_message_run.
    unfold display_response, display_event, emit, failed_turn_events.
    destruct (backend world (self_chat self) line) as [e|text recorded];
      destruct (ENABLE_RICH_FORMATTING config); reflexivity.
Qed.

(** The loop on a non-empty input, by the outcome of its first
    pass. *)
Lemma chat_loop_step (config : Config) (world : World) (R : Type)
    (line : string) (rest : list string) (self : GeminiClient) :
  chat_loop (R := R) config world (line :: rest) self
  = match turn_outcome (R := R) config world line self with
    | (t, self', Val Continue) =>
        after (EvInput (USER_PROMPT_PREFIX config) :: t)
              (chat_loop (R := R) config world rest self')
    | (t, self', Val Break) => (EvInput (USER_PROMPT_PREFIX config) :: t, self', Val tt)
    | (t, self', Ret r) => (EvInput (USER_PROMPT_PREFIX config) :: t, self', Ret r)
    | (t, self', Exc e) => (EvInput (USER_PROMPT_PREFIX config) :: t, self', Exc e)
    | (t, self', Exit c) => (EvInput (USER_PROMPT_PREFIX config) :: t, self', Exit c)
    end.
Proof.
  rewrite chat_loop_cons.
  remember (chat_loop config world rest) as next eqn:Hnext.
  unfold bind at 1. unfold emit at 1. unfold bind at 1.
  rewrite chat_turn_run.
  destruct (turn_outcome config world line self) as [[t self'] [[|]|r|e|c]];
    try reflexivity.
  - unfold pure. cbn. now rewrite app_nil_r.
  - unfold after. destruct (next self') as [[t' s''] r]. reflexivity.
Qed.

(** C6 at a path that reads as a closing tag: on the line
    [file [/x]], with no file of that name, the shell builds the
    message for a missing file around the path and hands it to
    [console.print], which raises [MarkupError] for the tag that
    closes nothing.  The call is outside the inner [try], so the loop
    ends there: nothing is printed for the line and no further line
    is read.  The handler of [chat] prints the text of the exception,
    which carries the same tag, and raises again, so the exception
    leaves the command. *)
Theorem file_command_markup_path_ends_loop :
  is_file_line "file [/x]" = true
  /\ path_exists (sample_world server_token backend_echo) (file_path_of "file [/x]") = false
  /\ chat_loop (R := unit) sample_config (sample_world server_token backend_echo)
       ["file [/x]"; "exit"] sample_client
     = ([EvInput "You: "; EvPathExists "[/x]"], sample_client,
        Exc (mkExn MarkupError
               "closing tag '[/x]' at position 33 doesn't match any open tag"))
  /\ result_of (chat sample_config (sample_world server_token backend_echo)
                  None "gemini-2.0-flash" None ["file [/x]"; "exit"] tt)
     = Exc (mkExn MarkupError
              "closing tag '[/x]' at position 41 doesn't match any open tag").
Proof.
  split; [reflexivity|]. split; [reflexivity|]. split; reflexivity.
Qed.

(** One pass of the loop on a [file ] line that is not an exit
    phrase and names a path that exists: the lookup of [process_file]
    raises, the shell prints the exception, and the loop goes on. *)
Lemma chat_loop_file_existing (config : Config) (world : World) (R : Type)
    (line : string) (rest : list string) (self : GeminiClient) :
  str_in (strip (lower line)) (EXIT_COMMANDS config) = false ->
  startswith (lower line) "file " = true ->
  str_truthy (file_path_of line) = true ->
  path_exists world (file_path_of line) = true ->
  chat_loop (R := R) config world (line :: rest) self
  = after [EvInput (USER_PROMPT_PREFIX config);
           EvPathExists (file_path_of line);
           turn_error no_process_file]
          (chat_loop (R := R) config world rest self).
Proof.
  intros Hexit Hfile Htruthy Hexists.
  rewrite chat_loop_step. unfold turn_outcome, is_exit_line, is_file_line.
  rewrite Hexit, Hfile, Htruthy, Hexists. reflexivity.
Qed.

(** C8 at a file that exists: the shell asks the client for
    [process_file], which [GeminiClient] does not have.  The
    [AttributeError] is printed as an error; the file is not read,
    nothing reaches the chat backend and no reply is displayed. *)
Theorem file_command_existing_path_prints_attribute_error :
  path_exists (sample_world server_token backend_echo) (file_path_of "file survey.json") = true
  /\ chat_loop (R := unit) sample_config (sample_world server_token backend_echo)
       ["file survey.json"; "exit"] sample_client
     = ([EvInput "You: ";
         EvPathExists "survey.json";
         EvConsole
           "[bold red]Error: 'GeminiClient' object has no attribute 'process_file'[/bold red]";
         EvInput "You: ";
         farewell], sample_client, Val tt)
  /\ no_backend (events_of
       (chat_loop (R := unit) sample_config (sample_world server_token backend_echo)
          ["file survey.json"; "exit"] sample_client)).
Proof.
  split; [reflexivity|].
  assert (E : chat_loop (R := unit) sample_config (sample_world server_token backend_echo)
                ["file survey.json"; "exit"] sample_client
              = ([EvInput "You: ";
                  EvPathExists "survey.json";
                  EvConsole
                    "[bold red]Error: 'GeminiClient' object has no attribute 'process_file'[/bold red]";
                  EvInput "You: ";
                  farewell], sample_client, Val tt)).
  { rewrite (chat_loop_file_existing sample_config (sample_world server_token backend_echo)
               unit "file survey.json" ["exit"] sample_client
               eq_refl eq_refl eq_refl eq_refl).
    reflexivity. }
  split; [exact E|]. rewrite E. cbn. repeat constructor.
Qed.

(** ** Errors that leave the session *)

Lemma chat_without_key (config : Config) (world : World)
    (model : string) (system_prompt_opt : option string) (stdin : list string) :
  opt_truthy (GEMINI_API_KEY config) = false ->
  chat config world None model system_prompt_opt stdin tt
  = ((if negb (model =? GEMINI_MODEL config)%string
      then [EvSetEnv "GEMINI_MODEL" model] else [])
     ++ (if opt_truthy system_prompt_opt
         then [EvSetEnv "SYSTEM_PROMPT"
                 (match system_prompt_opt with Some p => p | None => "" end)]
         else [])
     ++ [EvConsole (error_markup "Error: " credential_error)],
     tt, Exit 1)%list.
Proof.
  intros Hkey. unfold chat. cbn [opt_truthy].
  rewrite (bind_val _ _ tt tt [] tt eq_refl), after_nil.
  match goal with
  | |- context [try_excepts ?b ?c] =>
      assert (Hguarded : try_excepts b c tt
                         = ([EvConsole (error_markup "Error: " credential_error)],
                            tt, Exit 1))
  end.
  { erewrite try_excepts_exc;
      [ | unfold GeminiClient_init, py_or; cbn [opt_truthy]; rewrite Hkey; reflexivity
        | reflexivity ].
    cbv beta.
    rewrite (console_print_renders world _ _ _ (print_credential_error world)).
    reflexivity. }
  destruct (negb (model =? GEMINI_MODEL config)%string);
    destruct (opt_truthy system_prompt_opt);
    repeat (erewrite bind_val; [|reflexivity]);
    rewrite Hguarded; reflexivity.
Qed.

(** The constructor raises the credential error itself; anything else
    it raises comes from the SDK while the client and the chat are
    created. *)
Lemma GeminiClient_init_raises (config : Config) (world : World) (S R : Type)
    (api_key_arg system_prompt_arg : option string) (s : S) (e : exn) :
  result_of (GeminiClient_init (R := R) config world api_key_arg system_prompt_arg s)
  = Exc e ->
  e = credential_error
  \/ genai_Client world (py_or api_key_arg (GEMINI_API_KEY config)) = Some e
  \/ chats_create world (GEMINI_MODEL config)
       (py_or system_prompt_arg (SYSTEM_PROMPT config)) ai_functions = Some e.
Proof.
  unfold GeminiClient_init, result_of. unfold_monad.
  destruct (opt_truthy (py_or api_key_arg (GEMINI_API_KEY config))); cbn.
  - destruct (genai_Client world _) as [e1|] eqn:E1; cbn.
    + intros H. injection H as <-. right. now left.
    + destruct (chats_create world _ _ _) as [e2|] eqn:E2; cbn.
      * intros H. injection H as <-. right. now right.
      * discriminate.
  - intros H. injection H as <-. now left.
Qed.

(** With a key, what the SDK raises while the client or the chat is
    created leaves the constructor as it is. *)
Lemma GeminiClient_init_passes_sdk_error (config : Config) (world : World) (S R : Type)
    (api_key_arg system_prompt_arg : option string) (s : S) (e : exn) :
  opt_truthy (py_or api_key_arg (GEMINI_API_KEY config)) = true ->
  genai_Client world (py_or api_key_arg (GEMINI_API_KEY config)) = Some e
  \/ (genai_Client world (py_or api_key_arg (GEMINI_API_KEY config)) = None
      /\ chats_create world (GEMINI_MODEL config)
           (py_or system_prompt_arg (SYSTEM_PROMPT config)) ai_functions = Some e) ->
  result_of (GeminiClient_init (R := R) config world api_key_arg system_prompt_arg s)
  = Exc e.
Proof.
  intros Hkey Hsdk. unfold GeminiClient_init, result_of. rewrite Hkey. unfold_monad. cbn.
  destruct Hsdk as [Hclient|[Hclient Hchat]]; rewrite Hclient; cbn; [reflexivity|].
  rewrite Hchat. reflexivity.
Qed.

(** A handler of [chat] that prints and then exits ends the process
    with status 1, whether the print goes through or raises. *)
Lemma print_then_exit_status (world : World) (markup : string) :
  exit_code (result_of ((console_print (S := unit) (R := unit) world markup ;;
                         sys_exit (A := unit) 1) tt)) = 1.
Proof.
  unfold console_print. fold (print_error world markup).
  destruct (print_error world markup); reflexivity.
Qed.

(** Whatever exception the guarded part of [chat] raises, one of the
    two handlers takes it and the process ends with status 1. *)
Lemma chat_handlers_status (world : World) (body : M unit unit unit)
    (t : list event) (e : exn) :
  body tt = (t, tt, Exc e) ->
  exit_code
    (result_of
       (try_excepts body
          [ (is_ValueError,
             fun e => console_print world (error_markup "Error: " e) ;; sys_exit 1);
            (is_Exception,
             fun e => console_print world (error_markup "Unexpected error: " e) ;;
                      sys_exit 1) ] tt)) = 1.
Proof.
  intros Hbody.
  destruct (is_ValueError e) eqn:Hclass.
  - erewrite try_excepts_exc; [|exact Hbody|cbn [find_clause]; rewrite Hclass; reflexivity].
    rewrite result_of_after. apply print_then_exit_status.
  - erewrite try_excepts_exc; [|exact Hbody|cbn [find_clause]; rewrite Hclass; reflexivity].
    rewrite result_of_after. apply print_then_exit_status.
Qed.

(** The [chat] command, run without options, when the client cannot
    be built. *)
Lemma chat_construction_failure_status (config : Config) (world : World)
    (stdin : list string) :
  construction_ok config world = false ->
  exit_code (result_of (chat config world None (GEMINI_MODEL config) None stdin tt)) = 1.
Proof.
  intros Hfail. unfold chat. rewrite String.eqb_refl. cbn [opt_truthy negb].
  rewrite !(bind_val _ _ tt tt [] tt eq_refl), !after_nil.
  unfold construction_ok in Hfail.
  assert (Hraises : exists t e,
             (client <- GeminiClient_init (S := unit) (R := unit) config world None None ;;
              display_welcome config world ;;
              console_print world
                "[dim]Type 'file <filename>' to attach a file to your message.[/dim]" ;;
              console_print world "[dim]Type 'help' for more information.[/dim]" ;;
              console_print world "---" ;;
              on_object client (chat_loop config world stdin) ;;
              pure tt) tt = (t, tt, Exc e)).
  { unfold GeminiClient_init.
    destruct (opt_truthy (py_or None (GEMINI_API_KEY config))) eqn:Hkey.
    - assert (Hk : opt_truthy (GEMINI_API_KEY config) = true) by exact Hkey.
      rewrite Hk in Hfail. cbn [andb] in Hfail.
      destruct (genai_Client world (py_or None (GEMINI_API_KEY config))) as [e1|] eqn:E1.
      + exists [EvGenaiClient (py_or None (GEMINI_API_KEY config))], e1.
        unfold bind, pure, emit, raise. cbn [negb]. reflexivity.
      + destruct (chats_create world (GEMINI_MODEL config)
                    (py_or None (SYSTEM_PROMPT config)) ai_functions) as [e2|] eqn:E2;
          [|discriminate Hfail].
        exists [EvGenaiClient (py_or None (GEMINI_API_KEY config));
                EvChatCreate (GEMINI_MODEL config) (py_or None (SYSTEM_PROMPT config))
                  ai_functions], e2.
        unfold bind, pure, emit, raise. cbn [negb]. reflexivity.
    - exists [], credential_error. reflexivity. }
  destruct Hraises as (t & e & Hbody).
  apply (chat_handlers_status world _ t e Hbody).
Qed.

Lemma send_message_never_raises (world : World) (R : Type)
    (message : string) (self : GeminiClient) (e : exn) :
  result_of (send_message (R := R) world message self) <> Exc e.
Proof.
  rewrite send_message_run.
  destruct (backend world (self_chat self) message); discriminate.
Qed.

(** C5, as the code has it: with no API key in the constructor
    argument and none in the configuration, [GeminiClient(...)] raises
    the credential [ValueError] before the SDK is touched, and the
    [chat] command, run without a key option on such a
    configuration, prints that error and ends the process with status
    1.  The credential error is the only exception the constructor
    raises itself; what the SDK raises while the client or the chat
    is created leaves the constructor too, and the command, run
    without options, then ends with status 1 as well.
    [send_message] never raises. *)
Theorem missing_api_key_is_fatal :
  forall (config : Config) (world : World),
    (forall (S R : Type) (api_key_arg system_prompt_arg : option string) (s : S),
        opt_truthy api_key_arg = false ->
        opt_truthy (GEMINI_API_KEY config) = false ->
        GeminiClient_init (R := R) config world api_key_arg system_prompt_arg s
        = ([], s, Exc credential_error))
    /\ is_ValueError credential_error = true
    /\ (forall (model : string) (system_prompt_opt : option string) (stdin : list string),
          opt_truthy (GEMINI_API_KEY config) = false ->
          result_of (chat config world None model system_prompt_opt stdin tt) = Exit 1
          /\ exit_code (result_of (chat config world None model system_prompt_opt stdin tt)) = 1
          /\ In (EvConsole (error_markup "Error: " credential_error))
                (events_of (chat config world None model system_prompt_opt stdin tt))
          /\ no_backend (events_of (chat config world None model system_prompt_opt stdin tt)))
    /\ (forall (S R : Type) (api_key_arg system_prompt_arg : option string) (s : S) (e : exn),
          result_of (GeminiClient_init (R := R) config world api_key_arg system_prompt_arg s)
          = Exc e ->
          e = credential_error
          \/ genai_Client world (py_or api_key_arg (GEMINI_API_KEY config)) = Some e
          \/ chats_create world (GEMINI_MODEL config)
               (py_or system_prompt_arg (SYSTEM_PROMPT config)) ai_functions = Some e)
    /\ (forall (S R : Type) (api_key_arg system_prompt_arg : option string) (s : S) (e : exn),
          opt_truthy (py_or api_key_arg (GEMINI_API_KEY config)) = true ->
          genai_Client world (py_or api_key_arg (GEMINI_API_KEY config)) = Some e
          \/ (genai_Client world (py_or api_key_arg (GEMINI_API_KEY config)) = None
              /\ chats_create world (GEMINI_MODEL config)
                   (py_or system_prompt_arg (SYSTEM_PROMPT config)) ai_functions = Some e) ->
          result_of (GeminiClient_init (R := R) config world api_key_arg system_prompt_arg s)
          = Exc e)
    /\ (forall stdin : list string,
          construction_ok config world = false ->
          exit_code (result_of (chat config world None (GEMINI_MODEL config) None stdin tt))
          = 1)
    /\ (forall (R : Type) (message : string) (self : GeminiClient) (e : exn),
          result_of (send_message (R := R) world message self) <> Exc e).
Proof.
  intros config world.
  split.
  { intros S R api_key_arg system_prompt_arg s Harg Hkey.
    unfold GeminiClient_init, py_or. rewrite Harg, Hkey. reflexivity. }
  split; [reflexivity|].
  split.
  { intros model system_prompt_opt stdin Hkey.
    rewrite (chat_without_key config world model system_prompt_opt stdin Hkey).
    unfold result_of, events_of. cbn [fst snd exit_code].
    split; [reflexivity|]. split; [reflexivity|]. split.
    - apply in_or_app. right. apply in_or_app. right. now left.
    - unfold no_backend.
      apply Forall_app. split.
      + destruct (negb (model =? GEMINI_MODEL config)%string); repeat constructor.
      + apply Forall_app. split; [|repeat constructor].
        destruct (opt_truthy system_prompt_opt); repeat constructor. }
  split; [intros; now apply (GeminiClient_init_raises config world S R
                               api_key_arg system_prompt_arg s)|].
  split; [intros; now apply GeminiClient_init_passes_sdk_error|].
  split; [intros; now apply chat_construction_failure_status|].
  intros. apply send_message_never_raises.
Qed.

Lemma missing_api_key_is_fatal_witness :
  opt_truthy (GEMINI_API_KEY keyless_config) = false
  /\ GeminiClient_init (R := unit) keyless_config (sample_world server_token backend_echo)
       None None tt
     = ([], tt, Exc credential_error)
  /\ chat keyless_config (sample_world server_token backend_echo)
       None "gemini-2.0-flash" None ["hello"] tt
     = ([EvConsole
           "[bold red]Error: Gemini API key is required. Set it in .env file or pass it to the constructor.[/bold red]"],
        tt, Exit 1)
  /\ construction_ok sample_config sdk_failing_world = false
  /\ exit_code (result_of (chat sample_config sdk_failing_world
                             None (GEMINI_MODEL sample_config) None ["hello"] tt)) = 1.
Proof.
  pose proof (missing_api_key_is_fatal keyless_config
                (sample_world server_token backend_echo))
    as (Hinit & _ & _ & _).
  pose proof (missing_api_key_is_fatal sample_config sdk_failing_world)
    as (_ & _ & _ & _ & _ & Hstatus & _).
  split; [reflexivity|].
  split; [apply (Hinit unit unit None None tt eq_refl eq_refl)|].
  split; [reflexivity|]. split; [reflexivity|].
  apply (Hstatus ["hello"] eq_refl).
Defined.

(** C5 as worded says the credential error is the only one that
    leaves the session.  The constructor has no handler around the
    SDK calls: with a key present and an SDK that cannot build its
    client, the SDK's exception leaves [GeminiClient(...)], and it is
    not the credential error. *)
Lemma GeminiClient_init_propagates_sdk_error :
  opt_truthy (GEMINI_API_KEY sample_config) = true
  /\ GeminiClient_init (R := unit) sample_config sdk_failing_world None None tt
     = ([EvGenaiClient (Some "secret")], tt,
        Exc (mkExn (OtherException "RuntimeError") "no transport"))
  /\ mkExn (OtherException "RuntimeError") "no transport" <> credential_error
  /\ chat sample_config sdk_failing_world None "gemini-2.0-flash" None ["hello"] tt
     = ([EvGenaiClient (Some "secret");
         EvConsole "[bold red]Unexpected error: no transport[/bold red]"], tt, Exit 1).
Proof.
  split; [reflexivity|]. split; [reflexivity|]. split; [discriminate | reflexivity].
Qed.

(** * Further properties of the survey adapter *)

Lemma raise_for_status_run (S R : Type) (r : response) (s : S) :
  raise_for_status (R := R) r s
  = if is_error_status (resp_status r)
    then ([], s, Exc (mkExn RequestsHTTPError
                        (http_error_text (resp_url r) (resp_status r) (resp_reason r))))
    else ([], s, Val tt).
Proof.
  unfold raise_for_status, is_error_status, http_error_text.
  destruct (400 <=? resp_status r) eqn:E400; cbn.
  - destruct (resp_status r <? 500) eqn:E500; cbn.
    + replace (resp_status r <? 600) with true by (symmetry; apply Z.ltb_lt; lia).
      reflexivity.
    + replace (500 <=? resp_status r) with true
        by (symmetry; apply Z.leb_le; apply Z.ltb_ge in E500; lia).
      cbn. destruct (resp_status r <? 600); reflexivity.
  - replace (500 <=? resp_status r) with false
      by (symmetry; apply Z.leb_gt; apply Z.leb_gt in E400; lia).
    reflexivity.
Qed.

(** The whole of [load_survey] for a token that is a non-empty
    string, in terms of what the one GET comes to. *)
Lemma load_survey_run (h : http_request -> http_result) (S R : Type)
    (token : string) (survey_id : Z) (s : S) :
  token <> "" ->
  load_survey (R := R) h (Some token) survey_id s
  = match fetched_json h (export_request token survey_id) with
    | inl v =>
        ([EvLog "root" INFO "Exporting survey data for survey ID: {}" [ArgInt survey_id];
          EvHttp (export_request token survey_id);
          EvLog "root" INFO "Survey export successful. Response: {}" [ArgVal v]],
         s, Val v)
    | inr msg =>
        ([EvLog "root" INFO "Exporting survey data for survey ID: {}" [ArgInt survey_id];
          EvHttp (export_request token survey_id);
          EvLog "root" ERROR "Survey export error: {}" [ArgStr msg]],
         s, Val PyNone)
    end.
Proof.
  intros Htok.
  assert (Htruthy : opt_truthy (Some token) = true).
  { cbn. destruct (String.eqb_spec token ""); [contradiction | reflexivity]. }
  unfold load_survey, load_survey_body, fetched_json.
  rewrite Htruthy. cbn [negb].
  unfold requests_get, requests_send, response_json.
  fold (export_request token survey_id).
  remember (export_request token survey_id) as req eqn:Hreq.
  unfold logging_info, logging_error.
  unfold call_total, try_except, try_excepts, bind, emit, pure, return_, raise.
  destruct (h req) as [msg|status reason body]; [reflexivity|].
  cbv beta iota. rewrite raise_for_status_run.
  cbn [resp_status resp_url resp_reason resp_body].
  destruct (is_error_status status); [reflexivity|].
  destruct body as [v|]; reflexivity.
Qed.

(** The whole of [authenticate_voxco], in terms of what the one GET
    comes to. *)
Lemma authenticate_voxco_run (h : http_request -> http_result) (S R : Type)
    (username password : string) (s : S) :
  authenticate_voxco (R := R) h username password s
  = match fetched_json h (auth_request username password) with
    | inl (PyDict entries) =>
        ([EvLog "root" INFO "Authenticating with Voxco API for user: {}" [ArgStr username];
          EvHttp (auth_request username password);
          EvLog "root" INFO "Authentication successful. Token: {}"
            [ArgVal (dict_get entries "Token")]],
         s, Val (dict_get entries "Token"))
    | inl v =>
        ([EvLog "root" INFO "Authenticating with Voxco API for user: {}" [ArgStr username];
          EvHttp (auth_request username password)],
         s, Exc (no_get_error v))
    | inr msg =>
        ([EvLog "root" INFO "Authenticating with Voxco API for user: {}" [ArgStr username];
          EvHttp (auth_request username password);
          EvLog "root" ERROR "Authentication error: {}" [ArgStr msg]],
         s, Val PyNone)
    end.
Proof.
  unfold authenticate_voxco, authenticate_voxco_body, fetched_json.
  unfold requests_get, requests_send, response_json, py_get, no_get_error.
  fold (auth_request username password).
  remember (auth_request username password) as req eqn:Hreq.
  unfold logging_info, logging_error.
  unfold call_total, try_except, try_excepts, bind, emit, pure, return_, raise.
  destruct (h req) as [msg|status reason body]; [reflexivity|].
  cbv beta iota. rewrite raise_for_status_run.
  cbn [resp_status resp_url resp_reason resp_body].
  destruct (is_error_status status); [reflexivity|].
  destruct body as [v|]; [|reflexivity].
  destruct v; reflexivity.
Qed.

Lemma is_error_status_false (status : Z) :
  ~ (400 <= status < 600) -> is_error_status status = false.
Proof.
  intros H. unfold is_error_status.
  destruct (400 <=? status) eqn:Elo; [|reflexivity].
  destruct (status <? 600) eqn:Ehi; [|reflexivity].
  exfalso. apply H. apply Z.leb_le in Elo. apply Z.ltb_lt in Ehi. lia.
Qed.

Lemma is_error_status_true (status : Z) :
  400 <= status < 600 -> is_error_status status = true.
Proof.
  intros [Hlo Hhi]. unfold is_error_status.
  apply andb_true_intro. split; [apply Z.leb_le | apply Z.ltb_lt]; lia.
Qed.

(** A dictionary binds a key once: with distinct keys, the binding
    found is the binding there is. *)
Lemma dict_get_in (entries : list (string * pyval)) (key : string) (v : pyval) :
  NoDup (map fst entries) -> In (key, v) entries -> dict_get entries key = v.
Proof.
  induction entries as [|[k w] rest IH]; intros Hnd Hin; [contradiction|].
  cbn in *. inversion Hnd as [|? ? Hnotin Hrest]; subst.
  destruct Hin as [Heq|Hin].
  - injection Heq as -> ->. now rewrite String.eqb_refl.
  - destruct (String.eqb_spec k key) as [->|Hne].
    + exfalso. apply Hnotin. apply in_map_iff. exists (key, v). now split.
    + now apply IH.
Qed.

(** X1: every call of [authenticate_voxco] sends exactly one HTTP
    request, whatever the answer: a GET without headers whose URL
    carries the user name and the password in its query string.
    Nothing is retried. *)
Theorem authenticate_voxco_sends_one_get :
  forall (h : http_request -> http_result) (S R : Type)
         (username password : string) (s : S),
    http_requests (events_of (authenticate_voxco (R := R) h username password s))
    = [mkRequest GET
         ("https://beta7.voxco.com/api/authentication/user?userInfo.username="
          ++ username ++ "&userInfo.password=" ++ password) [] None]
    /\ state_of (authenticate_voxco (R := R) h username password s) = s.
Proof.
  intros. rewrite authenticate_voxco_run. fold (auth_request username password).
  destruct (fetched_json h (auth_request username password)) as [v|msg].
  - destruct v; split; reflexivity.
  - split; reflexivity.
Qed.

(** X2: when the answer is not an error status and its body is a JSON
    object, [authenticate_voxco] returns the value the object binds
    to ["Token"], of whatever JSON type, and logs it. *)
Theorem authenticate_voxco_returns_token :
  forall (h : http_request -> http_result) (S R : Type)
         (username password : string) (s : S)
         (status : Z) (reason : string) (entries : list (string * pyval)) (token : pyval),
    h (auth_request username password)
    = HttpResponse status reason (Some (PyDict entries)) ->
    ~ (400 <= status < 600) ->
    NoDup (map fst entries) ->
    In ("Token", token) entries ->
    authenticate_voxco (R := R) h username password s
    = ([EvLog "root" INFO "Authenticating with Voxco API for user: {}" [ArgStr username];
        EvHttp (auth_request username password);
        EvLog "root" INFO "Authentication successful. Token: {}" [ArgVal token]],
       s, Val token).
Proof.
  intros h S R username password s status reason entries token Hh Hst Hnd Hin.
  rewrite authenticate_voxco_run. unfold fetched_json. rewrite Hh.
  rewrite (is_error_status_false status Hst).
  rewrite (dict_get_in entries "Token" token Hnd Hin). reflexivity.
Qed.

Lemma authenticate_voxco_returns_token_witness :
  ~ (400 <= 200 < 600)
  /\ authenticate_voxco (R := unit) server_token "ann" "pw" tt
     = ([EvLog "root" INFO "Authenticating with Voxco API for user: {}" [ArgStr "ann"];
         EvHttp (auth_request "ann" "pw");
         EvLog "root" INFO "Authentication successful. Token: {}" [ArgVal (PyStr "abc")]],
        tt, Val (PyStr "abc")).
Proof.
  assert (Hst : ~ (400 <= 200 < 600)) by lia.
  split; [exact Hst|].
  apply (authenticate_voxco_returns_token server_token unit unit "ann" "pw" tt
           200 "OK" [("Token", PyStr "abc")] (PyStr "abc")).
  - reflexivity.
  - exact Hst.
  - repeat constructor. cbn. intros [].
  - now left.
Defined.

(** X3: the only exception [authenticate_voxco] lets out is the
    [AttributeError] of [data.get], and only when the answer passed
    the status check with a JSON body that is not an object; transport
    errors, error statuses and undecodable bodies never surface as
    exceptions. *)
Theorem authenticate_voxco_raises_only_attribute_error :
  forall (h : http_request -> http_result) (S R : Type)
         (username password : string) (s : S) (e : exn),
    result_of (authenticate_voxco (R := R) h username password s) = Exc e ->
    is_RequestException e = false
    /\ exists status reason v,
        h (auth_request username password) = HttpResponse status reason (Some v)
        /\ ~ (400 <= status < 600)
        /\ is_dict v = false
        /\ e = no_get_error v.
Proof.
  intros h S R username password s e.
  rewrite authenticate_voxco_run. unfold fetched_json.
  destruct (h (auth_request username password)) as [msg|status reason body];
    [discriminate|].
  destruct (is_error_status status) eqn:Est; [discriminate|].
  destruct body as [v|]; [|discriminate].
  assert (Hst : ~ (400 <= status < 600)).
  { intros H. rewrite (is_error_status_true status H) in Est. discriminate. }
  destruct v; cbn; try discriminate;
    intros H; injection H as <-;
    (split; [reflexivity|]); do 3 eexists; repeat split; try reflexivity; exact Hst.
Qed.

Lemma authenticate_voxco_raises_only_attribute_error_witness :
  result_of (authenticate_voxco (R := unit) server_json_list "ann" "pw" tt)
  = Exc (no_get_error (PyList []))
  /\ is_RequestException (no_get_error (PyList [])) = false.
Proof.
  assert (H : result_of (authenticate_voxco (R := unit) server_json_list "ann" "pw" tt)
              = Exc (no_get_error (PyList []))) by reflexivity.
  split; [exact H|].
  exact (proj1 (authenticate_voxco_raises_only_attribute_error server_json_list
                  unit unit "ann" "pw" tt (no_get_error (PyList [])) H)).
Defined.

(** X4: with a non-empty token, an answer that is not an error status
    and carries a JSON body makes [load_survey] return that body
    unchanged, after one GET of the export URL of the survey with the
    header [Authorization: Client <token>]. *)
Theorem load_survey_returns_body :
  forall (h : http_request -> http_result) (S R : Type)
         (token : string) (survey_id : Z) (s : S)
         (status : Z) (reason : string) (document : pyval),
    token <> "" ->
    h (export_request token survey_id) = HttpResponse status reason (Some document) ->
    ~ (400 <= status < 600) ->
    load_survey (R := R) h (Some token) survey_id s
    = ([EvLog "root" INFO "Exporting survey data for survey ID: {}" [ArgInt survey_id];
        EvHttp (mkRequest GET
                  ("https://beta7.voxco.com/api/survey/export/json/"
                   ++ str_of_int survey_id ++ "?deployed=false&modality=Master")
                  [("Authorization", "Client " ++ token)] None);
        EvLog "root" INFO "Survey export successful. Response: {}" [ArgVal document]],
       s, Val document).
Proof.
  intros h S R token survey_id s status reason document Htok Hh Hst.
  rewrite (load_survey_run h S R token survey_id s Htok).
  unfold fetched_json. rewrite Hh, (is_error_status_false status Hst). reflexivity.
Qed.

Lemma load_survey_returns_body_witness :
  "abc" <> ""
  /\ ~ (400 <= 200 < 600)
  /\ load_survey (R := unit) server_no_token (Some "abc") 42 tt
     = ([EvLog "root" INFO "Exporting survey data for survey ID: {}" [ArgInt 42];
         EvHttp (mkRequest GET
                   "https://beta7.voxco.com/api/survey/export/json/42?deployed=false&modality=Master"
                   [("Authorization", "Client abc")] None);
         EvLog "root" INFO "Survey export successful. Response: {}"
           [ArgVal (PyDict [("Message", PyStr "welcome")])]],
        tt, Val (PyDict [("Message", PyStr "welcome")])).
Proof.
  assert (Htok : "abc" <> "") by discriminate.
  assert (Hst : ~ (400 <= 200 < 600)) by lia.
  split; [exact Htok|]. split; [exact Hst|].
  apply (load_survey_returns_body server_no_token unit unit "abc" 42 tt 200 "OK"
           (PyDict [("Message", PyStr "welcome")]) Htok eq_refl Hst).
Defined.

(** X5: with a non-empty token, a transport failure or an answer with
    a status from 400 to 599 makes [load_survey] log the error and
    return [None]; the one request is not repeated. *)
Theorem load_survey_failure_returns_none :
  forall (h : http_request -> http_result) (S R : Type)
         (token : string) (survey_id : Z) (s : S),
    token <> "" ->
    (exists msg, h (export_request token survey_id) = TransportError msg)
    \/ (exists status reason body,
          h (export_request token survey_id) = HttpResponse status reason body
          /\ 400 <= status < 600) ->
    exists msg,
      load_survey (R := R) h (Some token) survey_id s
      = ([EvLog "root" INFO "Exporting survey data for survey ID: {}" [ArgInt survey_id];
          EvHttp (export_request token survey_id);
          EvLog "root" ERROR "Survey export error: {}" [ArgStr msg]],
         s, Val PyNone).
Proof.
  intros h S R token survey_id s Htok [[msg Hh]|(status & reason & body & Hh & Hst)];
    rewrite (load_survey_run h S R token survey_id s Htok); unfold fetched_json;
    rewrite Hh.
  - exists msg. reflexivity.
  - rewrite (is_error_status_true status Hst). eexists. reflexivity.
Qed.

Lemma load_survey_failure_returns_none_witness :
  "abc" <> ""
  /\ 400 <= 503 < 600
  /\ load_survey (R := unit) server_unavailable (Some "abc") 42 tt
     = ([EvLog "root" INFO "Exporting survey data for survey ID: {}" [ArgInt 42];
         EvHttp (export_request "abc" 42);
         EvLog "root" ERROR "Survey export error: {}"
           [ArgStr "503 Server Error: Service Unavailable for url: https://beta7.voxco.com/api/survey/export/json/42?deployed=false&modality=Master"]],
        tt, Val PyNone).
Proof.
  assert (Htok : "abc" <> "") by discriminate.
  assert (Hst : 400 <= 503 < 600) by lia.
  split; [exact Htok|]. split; [exact Hst|].
  destruct (load_survey_failure_returns_none server_unavailable unit unit "abc" 42 tt Htok
              (or_intror (ex_intro _ 503 (ex_intro _ "Service Unavailable"
                 (ex_intro _ None (conj eq_refl Hst))))))
    as [msg Hrun].
  reflexivity.
Defined.

(** X6: [load_survey] calls [requests.get] once when the token is a
    non-empty string and not at all when it is [None] or empty,
    whatever the network answers: there is no retry and no request
    without a token.  The object in scope is left as it was. *)
Theorem load_survey_sends_at_most_one_get :
  forall (h : http_request -> http_result) (S R : Type)
         (token : option string) (survey_id : Z) (s : S),
    state_of (load_survey (R := R) h token survey_id s) = s
    /\ http_requests (events_of (load_survey (R := R) h token survey_id s))
       = match token with
         | Some t => if (t =? "")%string then [] else [export_request t survey_id]
         | None => []
         end.
Proof.
  intros h S R token survey_id s.
  destruct token as [t|].
  - destruct (String.eqb_spec t "") as [->|Hne].
    + split; reflexivity.
    + rewrite (load_survey_run h S R t survey_id s Hne).
      destruct (fetched_json h (export_request t survey_id)) as [v|msg];
        split; reflexivity.
  - split; reflexivity.
Qed.

(** * Further properties of the chat session *)

Lemma same_session_refl (self : GeminiClient) : same_session self self.
Proof.
  unfold same_session. repeat split. exists []. now rewrite app_nil_r.
Qed.

Lemma same_session_trans (a b c : GeminiClient) :
  same_session a b -> same_session b c -> same_session a c.
Proof.
  unfold same_session.
  intros (L1 & K1 & P1 & C1 & V1 & M1 & I1 & T1 & turns1 & H1)
         (L2 & K2 & P2 & C2 & V2 & M2 & I2 & T2 & turns2 & H2).
  repeat split; try congruence.
  exists (turns1 ++ turns2)%list. rewrite H2, H1. now rewrite app_assoc.
Qed.

Lemma same_session_with_turns (self : GeminiClient) (recorded : list (string * string)) :
  same_session self (with_turns self recorded).
Proof.
  unfold same_session, with_turns, set_chat. cbn. repeat split. eexists. reflexivity.
Qed.

(** X8: whether the backend call raises or answers, [send_message]
    never raises, and it changes nothing of the client but the
    conversation, which is only ever added to: the stored Voxco
    token, the key, the system prompt and the chat's model and tools
    are as before.  It calls the backend exactly once, with the
    message as given. *)
Theorem send_message_frame :
  forall (world : World) (R : Type) (message : string) (self : GeminiClient),
    (forall e : exn, result_of (send_message (R := R) world message self) <> Exc e)
    /\ same_session self (state_of (send_message (R := R) world message self))
    /\ sent_messages (events_of (send_message (R := R) world message self)) = [message].
Proof.
  intros world R message self. rewrite send_message_run.
  destruct (backend world (self_chat self) message) as [e|text recorded]; cbn.
  - split; [discriminate|]. split; [apply same_session_refl | reflexivity].
  - split; [discriminate|]. split; [apply same_session_with_turns | reflexivity].
Qed.

(** X9: with a key in the constructor argument or, failing that, in
    the configuration, and an SDK that builds the client and the chat,
    [GeminiClient(...)] gives a client that holds that key, has no
    Voxco token yet and an empty conversation, and whose chat is set
    up with the configured model and the three adapter functions as
    tools.  A non-empty argument wins over the configuration. *)
Theorem GeminiClient_init_fresh :
  forall (config : Config) (world : World) (S R : Type)
         (api_key_arg system_prompt_arg : option string) (s : S),
    let key := py_or api_key_arg (GEMINI_API_KEY config) in
    let prompt := py_or system_prompt_arg (SYSTEM_PROMPT config) in
    opt_truthy key = true ->
    genai_Client world key = None ->
    chats_create world (GEMINI_MODEL config) prompt ai_functions = None ->
    GeminiClient_init (R := R) config world api_key_arg system_prompt_arg s
    = ([EvGenaiClient key; EvChatCreate (GEMINI_MODEL config) prompt ai_functions],
       s, Val (fresh_client config key prompt))
    /\ voxco_token (fresh_client config key prompt) = PyNone
    /\ chat_history (self_chat (fresh_client config key prompt)) = []
    /\ chat_tools (self_chat (fresh_client config key prompt))
       = ["authenticate_voxco"; "load_survey"; "save_survey"]
    /\ (opt_truthy api_key_arg = true -> key = api_key_arg)
    /\ (opt_truthy api_key_arg = false -> key = GEMINI_API_KEY config).
Proof.
  intros config world S R api_key_arg system_prompt_arg s key prompt Hkey Hclient Hchat.
  split.
  - unfold GeminiClient_init. fold key. fold prompt.
    rewrite Hkey. unfold_monad. cbn. rewrite Hclient. cbn. rewrite Hchat. reflexivity.
  - repeat split; try reflexivity; unfold key, py_or; intros ->; reflexivity.
Qed.

Lemma GeminiClient_init_fresh_witness :
  opt_truthy (py_or (Some "override") (GEMINI_API_KEY sample_config)) = true
  /\ GeminiClient_init (R := unit) sample_config (sample_world server_token backend_echo)
       (Some "override") None tt
     = ([EvGenaiClient (Some "override");
         EvChatCreate "gemini-2.0-flash" (Some "You help with surveys.") ai_functions],
        tt,
        Val (fresh_client sample_config (Some "override") (Some "You help with surveys."))).
Proof.
  split; [reflexivity|].
  apply (GeminiClient_init_fresh sample_config (sample_world server_token backend_echo)
           unit unit (Some "override") None tt eq_refl eq_refl eq_refl).
Defined.

(** * Further properties of the shell *)

Lemma sent_messages_app (a b : list event) :
  sent_messages (a ++ b) = (sent_messages a ++ sent_messages b)%list.
Proof. unfold sent_messages. apply flat_map_app. Qed.

Lemma sent_messages_display (config : Config) (text : string) :
  sent_messages [display_event config text] = [].
Proof. unfold display_event. destruct (ENABLE_RICH_FORMATTING config); reflexivity. Qed.

(** A line without an opening bracket names a path without one. *)
Lemma has_char_slice_from (c : ascii) (n : nat) (s : string) :
  has_char c s = false -> has_char c (slice_from n s) = false.
Proof.
  revert s. induction n as [|n IH]; intros s H; [exact H|].
  destruct s as [|d s]; [reflexivity|].
  cbn in H. apply orb_false_elim in H as [_ H]. cbn. now apply IH.
Qed.

Lemma has_char_lstrip (c : ascii) (s : string) :
  has_char c s = false -> has_char c (lstrip s) = false.
Proof.
  induction s as [|d s IH]; intros H; [reflexivity|].
  cbn [lstrip]. destruct (is_space d); [|exact H].
  cbn in H. apply orb_false_elim in H as [_ H]. now apply IH.
Qed.

Lemma has_char_rev (c : ascii) (s : string) :
  has_char c (string_rev s) = has_char c s.
Proof.
  induction s as [|d s IH]; [reflexivity|].
  cbn. rewrite has_char_app, IH. cbn. rewrite orb_false_r. apply orb_comm.
Qed.

Lemma has_char_strip (c : ascii) (s : string) :
  has_char c s = false -> has_char c (strip s) = false.
Proof.
  intros H. unfold strip, rstrip.
  rewrite has_char_rev. apply has_char_lstrip.
  rewrite has_char_rev. now apply has_char_lstrip.
Qed.

Lemma file_path_plain (line : string) :
  has_char "[" line = false -> has_char "[" (file_path_of line) = false.
Proof.
  intros H. unfold file_path_of. now apply has_char_strip, has_char_slice_from.
Qed.

(** One pass of the loop: it keeps the session; it hands the line to
    the backend exactly when the line is neither an exit phrase nor a
    file command; and it either ends as the line asks (the loop is
    left on an exit phrase and goes on otherwise) or raises the
    [MarkupError] of the message for a missing file. *)
Lemma turn_outcome_facts (config : Config) (world : World) (R : Type)
    (line : string) (self : GeminiClient) :
  exists t self' r,
    turn_outcome (R := R) config world line self = (t, self', r)
    /\ same_session self self'
    /\ sent_messages t
       = (if is_exit_line config line then []
          else if is_file_line line then [] else [line])
    /\ (r = Val (if is_exit_line config line then Break else Continue)
        \/ exists e,
            r = Exc e
            /\ exn_cls e = MarkupError
            /\ is_exit_line config line = false
            /\ is_file_line line = true
            /\ print_error world (not_found_markup (file_path_of line)) = Some e).
Proof.
  unfold turn_outcome.
  destruct (is_exit_line config line).
  { do 3 eexists. split; [reflexivity|]. split; [apply same_session_refl|].
    split; [reflexivity | now left]. }
  destruct (is_file_line line).
  - destruct (negb (str_truthy (file_path_of line))).
    { do 3 eexists. split; [reflexivity|]. split; [apply same_session_refl|].
      split; [reflexivity | now left]. }
    destruct (path_exists world (file_path_of line)).
    { do 3 eexists. split; [reflexivity|]. split; [apply same_session_refl|].
      split; [reflexivity | now left]. }
    destruct (print_error world (not_found_markup (file_path_of line))) as [e|] eqn:Hprint.
    + do 3 eexists. split; [reflexivity|]. split; [apply same_session_refl|].
      split; [reflexivity|]. right. exists e.
      repeat split; try reflexivity. exact (print_error_class world _ e Hprint).
    + do 3 eexists. split; [reflexivity|]. split; [apply same_session_refl|].
      split; [reflexivity | now left].
  - destruct (backend world (self_chat self) line) as [e|text recorded].
    + do 3 eexists. split; [reflexivity|]. split; [apply same_session_refl|].
      split; [|now left].
      rewrite sent_messages_app, sent_messages_display. reflexivity.
    + do 3 eexists. split; [reflexivity|]. split; [apply same_session_with_turns|].
      split; [|now left].
      change (sent_messages
                ([EvLog (logger self) INFO "USER: {}" [ArgStr line];
                  EvBackend line;
                  EvLog (logger self) INFO "AI: {}" [ArgStr text]]
                 ++ [display_event config text]) = [line]).
      rewrite sent_messages_app, sent_messages_display. reflexivity.
Qed.

(** The loop as a whole, by induction on the lines of input. *)
Lemma chat_loop_summary (config : Config) (world : World) (R : Type)
    (stdin : list string) :
  forall self : GeminiClient,
    same_session self (state_of (chat_loop (R := R) config world stdin self))
    /\ (exists unread,
          forwarded config stdin
          = (sent_messages (events_of (chat_loop (R := R) config world stdin self))
             ++ unread)%list)
    /\ ((result_of (chat_loop (R := R) config world stdin self) = Val tt
         /\ reaches_exit config stdin = true)
        \/ exists e, result_of (chat_loop (R := R) config world stdin self) = Exc e)
    /\ (Forall (fun line => has_char "[" line = false) stdin ->
        result_of (chat_loop (R := R) config world stdin self)
        = (if reaches_exit config stdin then Val tt else Exc eof_error)
        /\ sent_messages (events_of (chat_loop (R := R) config world stdin self))
           = forwarded config stdin).
Proof.
  induction stdin as [|line rest IH]; intros self.
  - split; [apply same_session_refl|]. split; [exists []; reflexivity|].
    split; [right; eexists; reflexivity|]. intros _. split; reflexivity.
  - rewrite chat_loop_step.
    destruct (turn_outcome_facts config world R line self)
      as (t & self' & r & Hturn & Hsame & Hsent & Hend).
    rewrite Hturn. cbn [reaches_exit existsb forwarded].
    destruct Hend as [->|(e & -> & _ & Hexit & Hfile & Hprint)].
    + destruct (is_exit_line config line) eqn:Hexit.
      * unfold result_of, events_of, state_of. cbn [fst snd orb].
        change (EvInput (USER_PROMPT_PREFIX config) :: t)
          with ([EvInput (USER_PROMPT_PREFIX config)] ++ t)%list.
        rewrite sent_messages_app, Hsent.
        split; [exact Hsame|]. split; [exists []; reflexivity|].
        split; [left; split; reflexivity|]. intros _. split; reflexivity.
      * destruct (IH self') as (Hkeep & (unread & Hfwd) & Hres & Hplain).
        rewrite result_of_after, state_of_after, events_of_after.
        change (EvInput (USER_PROMPT_PREFIX config) :: t)
          with ([EvInput (USER_PROMPT_PREFIX config)] ++ t)%list.
        rewrite !sent_messages_app, Hsent. cbn [orb].
        split; [eapply same_session_trans; eassumption|].
        split.
        { exists unread. rewrite Hfwd.
          destruct (is_file_line line); reflexivity. }
        split; [exact Hres|].
        intros Hall. inversion Hall as [|? ? _ Hrest]; subst.
        destruct (Hplain Hrest) as [Hr Hs]. split; [exact Hr|].
        rewrite Hs. destruct (is_file_line line); reflexivity.
    + rewrite Hexit, Hfile.
      unfold result_of, events_of, state_of. cbn [fst snd orb].
      change (EvInput (USER_PROMPT_PREFIX config) :: t)
        with ([EvInput (USER_PROMPT_PREFIX config)] ++ t)%list.
      rewrite sent_messages_app, Hsent, Hexit, Hfile.
      split; [exact Hsame|]. split; [exists (forwarded config rest); reflexivity|].
      split; [right; eexists; reflexivity|].
      intros Hall. inversion Hall as [|? ? Hline _]; subst.
      rewrite (print_not_found_plain world _ (file_path_plain line Hline)) in Hprint.
      discriminate Hprint.
Qed.

(** X7: a file command that is not an exit phrase and whose path is
    empty, or names nothing that exists and holds no opening bracket,
    gets a local error and nothing else: the shell prints "Please
    specify a file name" or "File not found" with the path, sends
    nothing to the chat backend, leaves the client as it was and
    prompts for the next line. *)
Theorem file_command_plain_path_is_local_error :
  forall (config : Config) (world : World) (R : Type)
         (line : string) (rest : list string) (self : GeminiClient),
    is_exit_line config line = false ->
    is_file_line line = true ->
    has_char "[" (file_path_of line) = false ->
    str_truthy (file_path_of line) = false
    \/ path_exists world (file_path_of line) = false ->
    chat_loop (R := R) config world (line :: rest) self
    = after (EvInput (USER_PROMPT_PREFIX config) :: file_error_events (file_path_of line))
            (chat_loop (R := R) config world rest self)
    /\ no_backend (file_error_events (file_path_of line))
    /\ exists t,
        events_of (chat_loop (R := R) config world rest self)
        = EvInput (USER_PROMPT_PREFIX config) :: t.
Proof.
  intros config world R line rest self Hexit Hfile Hplain Hbad.
  split; [|split; [|apply chat_loop_prompts_first]].
  - rewrite chat_loop_step. unfold turn_outcome, file_error_events.
    rewrite Hexit, Hfile.
    destruct (str_truthy (file_path_of line)) eqn:Hpath; cbn [negb]; [|reflexivity].
    destruct Hbad as [Hempty|Hmissing]; [discriminate Hempty|].
    rewrite Hmissing, (print_not_found_plain world _ Hplain). reflexivity.
  - unfold file_error_events, no_backend.
    destruct (str_truthy (file_path_of line)); repeat constructor.
Qed.

Lemma file_command_plain_path_is_local_error_witness :
  is_exit_line sample_config "FILE nope.txt" = false
  /\ is_file_line "FILE nope.txt" = true
  /\ has_char "[" (file_path_of "FILE nope.txt") = false
  /\ path_exists (sample_world server_token backend_echo) (file_path_of "FILE nope.txt") = false
  /\ chat_loop (R := unit) sample_config (sample_world server_token backend_echo)
       ["FILE nope.txt"; "file   "; "exit"] sample_client
     = ([EvInput "You: ";
         EvPathExists "nope.txt";
         EvConsole "[bold red]Error: File not found: nope.txt[/bold red]";
         EvInput "You: ";
         EvConsole "[bold red]Error: Please specify a file name[/bold red]";
         EvInput "You: ";
         farewell], sample_client, Val tt).
Proof.
  split; [reflexivity|]. split; [reflexivity|]. split; [reflexivity|].
  split; [reflexivity|].
  destruct (file_command_plain_path_is_local_error sample_config
              (sample_world server_token backend_echo) unit "FILE nope.txt"
              ["file   "; "exit"] sample_client eq_refl eq_refl eq_refl
              (or_intror eq_refl)) as (Hfirst & _ & _).
  rewrite Hfirst.
  destruct (file_command_plain_path_is_local_error sample_config
              (sample_world server_token backend_echo) unit "file   "
              ["exit"] sample_client eq_refl eq_refl eq_refl
              (or_introl eq_refl)) as (Hsecond & _ & _).
  rewrite Hsecond. reflexivity.
Defined.

(** X10: a pass of the loop keeps the session and ends the loop
    exactly on an exit phrase, with one exception: for a file command
    whose path does not exist, [console.print] raises [MarkupError]
    when the path makes the message invalid markup, and that
    exception leaves the pass.  No other line and no other exception
    does: whatever the backend and the file system do, a line without
    an opening bracket never makes a pass raise. *)
Theorem chat_turn_raises_only_markup_error :
  forall (config : Config) (world : World) (R : Type)
         (line : string) (self : GeminiClient),
    exists t self' r,
      call (R' := R) Continue (chat_turn config world line) self = (t, self', r)
      /\ same_session self self'
      /\ (r = Val (if is_exit_line config line then Break else Continue)
          \/ exists e, r = Exc e /\ exn_cls e = MarkupError /\ is_file_line line = true)
      /\ (has_char "[" line = false ->
          r = Val (if is_exit_line config line then Break else Continue)).
Proof.
  intros. rewrite chat_turn_run.
  destruct (turn_outcome_facts config world R line self)
    as (t & self' & r & Hturn & Hsame & _ & Hend).
  exists t, self', r. split; [exact Hturn|]. split; [exact Hsame|]. split.
  - destruct Hend as [Hval|(e & Hr & Hcls & _ & Hfile & _)]; [now left|].
    right. exists e. repeat split; assumption.
  - intros Hplain.
    destruct Hend as [Hval|(e & _ & _ & _ & _ & Hprint)]; [exact Hval|].
    rewrite (print_not_found_plain world _ (file_path_plain line Hplain)) in Hprint.
    discriminate Hprint.
Qed.

Lemma chat_turn_raises_only_markup_error_witness :
  has_char "[" "file nope.txt" = false
  /\ call (R' := unit) Continue
       (chat_turn sample_config (sample_world server_token backend_echo) "file nope.txt")
       sample_client
     = ([EvPathExists "nope.txt";
         EvConsole "[bold red]Error: File not found: nope.txt[/bold red]"],
        sample_client, Val Continue).
Proof.
  split; [reflexivity|].
  destruct (chat_turn_raises_only_markup_error sample_config
              (sample_world server_token backend_echo) unit "file nope.txt" sample_client)
    as (t & self' & r & Hrun & _ & _ & Hplain).
  reflexivity.
Defined.

(** X11: when the loop returns, some line of input was an exit
    phrase; without one the loop never returns normally, an exception
    leaves it.  On lines none of which holds an opening bracket, the
    loop returns exactly when some line is an exit phrase, and
    otherwise reads the lines to the last and ends with the
    [EOFError] of [input]. *)
Theorem chat_loop_ends_on_exit_or_eof :
  forall (config : Config) (world : World) (R : Type)
         (stdin : list string) (self : GeminiClient),
    ((result_of (chat_loop (R := R) config world stdin self) = Val tt
      /\ reaches_exit config stdin = true)
     \/ exists e, result_of (chat_loop (R := R) config world stdin self) = Exc e)
    /\ (Forall (fun line => has_char "[" line = false) stdin ->
        result_of (chat_loop (R := R) config world stdin self)
        = if reaches_exit config stdin then Val tt else Exc eof_error).
Proof.
  intros. destruct (chat_loop_summary config world R stdin self)
    as (_ & _ & Hres & Hplain).
  split; [exact Hres|]. intros Hall. apply (Hplain Hall).
Qed.

Lemma chat_loop_ends_on_exit_or_eof_witness :
  Forall (fun line => has_char "[" line = false) ["hello"; "file nope.txt"]
  /\ result_of (chat_loop (R := unit) sample_config
                  (sample_world server_token backend_echo)
                  ["hello"; "file nope.txt"] sample_client)
     = Exc eof_error.
Proof.
  assert (Hall : Forall (fun line => has_char "[" line = false) ["hello"; "file nope.txt"])
    by (repeat constructor).
  split; [exact Hall|].
  exact (proj2 (chat_loop_ends_on_exit_or_eof sample_config
                  (sample_world server_token backend_echo) unit
                  ["hello"; "file nope.txt"] sample_client) Hall).
Defined.

(** X12: what reaches the chat backend is always a leading part of
    the input lines before the first exit phrase that are not file
    commands, each as typed (not stripped, not lower-cased), in order
    and once each; when no line holds an opening bracket it is all of
    them. *)
Theorem chat_loop_forwards_verbatim :
  forall (config : Config) (world : World) (R : Type)
         (stdin : list string) (self : GeminiClient),
    (exists unread,
        forwarded config stdin
        = (sent_messages (events_of (chat_loop (R := R) config world stdin self))
           ++ unread)%list)
    /\ (Forall (fun line => has_char "[" line = false) stdin ->
        sent_messages (events_of (chat_loop (R := R) config world stdin self))
        = forwarded config stdin).
Proof.
  intros. destruct (chat_loop_summary config world R stdin self)
    as (_ & Hfwd & _ & Hplain).
  split; [exact Hfwd|]. intros Hall. apply (Hplain Hall).
Qed.

Lemma chat_loop_forwards_verbatim_witness :
  Forall (fun line => has_char "[" line = false)
         ["  Hello There "; "FILE nope.txt"; "again"; " Exit"; "late"]
  /\ sent_messages (events_of (chat_loop (R := unit) sample_config
                                 (sample_world server_token backend_echo)
                                 ["  Hello There "; "FILE nope.txt"; "again"; " Exit"; "late"]
                                 sample_client))
     = ["  Hello There "; "again"].
Proof.
  assert (Hall : Forall (fun line => has_char "[" line = false)
                        ["  Hello There "; "FILE nope.txt"; "again"; " Exit"; "late"])
    by (repeat constructor).
  split; [exact Hall|].
  rewrite (proj2 (chat_loop_forwards_verbatim sample_config
                    (sample_world server_token backend_echo) unit
                    ["  Hello There "; "FILE nope.txt"; "again"; " Exit"; "late"]
                    sample_client) Hall).
  reflexivity.
Defined.

(** X13: however long the conversation, the shell leaves the
    client's key, system prompt, chat set-up and stored Voxco token
    as they were; the conversation history is only added to. *)
Theorem chat_loop_keeps_session :
  forall (config : Config) (world : World) (R : Type)
         (stdin : list string) (self : GeminiClient),
    same_session self (state_of (chat_loop (R := R) config world stdin self)).
Proof.
  intros. apply (chat_loop_summary config world R stdin self).
Qed.

(** X14: input after an exit phrase is never read: the loop does the
    same, event for event, whatever follows the exit phrase. *)
Theorem chat_loop_ignores_input_after_exit :
  forall (config : Config) (world : World) (R : Type)
         (before : list string) (line : string) (rest : list string)
         (self : GeminiClient),
    is_exit_line config line = true ->
    chat_loop (R := R) config world (before ++ line :: rest) self
    = chat_loop (R := R) config world (before ++ [line]) self.
Proof.
  intros config world R before line rest self Hexit. revert self.
  induction before as [|first before IH]; intros self.
  - cbn [app]. rewrite !chat_loop_step. unfold turn_outcome. rewrite Hexit. reflexivity.
  - cbn [app]. rewrite !chat_loop_step.
    destruct (turn_outcome config world first self) as [[t self'] [[]| | |]];
      try reflexivity.
    rewrite IH. reflexivity.
Qed.

Lemma chat_loop_ignores_input_after_exit_witness :
  is_exit_line sample_config "Quit" = true
  /\ chat_loop (R := unit) sample_config (sample_world server_token backend_echo)
       (["file "] ++ "Quit" :: ["hello"; "exit"]) sample_client
     = ([EvInput "You: ";
         EvConsole "[bold red]Error: Please specify a file name[/bold red]";
         EvInput "You: ";
         farewell], sample_client, Val tt).
Proof.
  split; [reflexivity|].
  rewrite (chat_loop_ignores_input_after_exit sample_config
             (sample_world server_token backend_echo) unit
             ["file "] "Quit" ["hello"; "exit"] sample_client eq_refl).
  reflexivity.
Defined.

(** How a computation of the command ends when it neither exits
    nor returns early: with a value or with an exception. *)
Lemma bind_outcome {A B : Type} (m : M unit unit A) (k : A -> M unit unit B)
    (P : res unit B -> Prop) :
  (forall t e, m tt = (t, tt, Exc e) -> P (Exc e)) ->
  (forall t a, m tt = (t, tt, Val a) -> P (result_of (k a tt))) ->
  ((exists t a, m tt = (t, tt, Val a)) \/ (exists t e, m tt = (t, tt, Exc e))) ->
  P (result_of (bind m k tt)).
Proof.
  intros Hexc Hval [(t & a & H)|(t & e & H)].
  - rewrite (bind_val m k tt tt t a H), result_of_after. exact (Hval t a H).
  - rewrite (bind_exc m k tt tt t e H). exact (Hexc t e H).
Qed.

Lemma console_print_outcome (world : World) (markup : string) :
  (exists t a, console_print (S := unit) (R := unit) world markup tt = (t, tt, Val a))
  \/ (exists t e, console_print (S := unit) (R := unit) world markup tt = (t, tt, Exc e)).
Proof.
  unfold console_print. fold (print_error world markup).
  destruct (print_error world markup) as [e|].
  - right. do 2 eexists. reflexivity.
  - left. do 2 eexists. reflexivity.
Qed.

Lemma GeminiClient_init_outcome (config : Config) (world : World)
    (api_key_arg system_prompt_arg : option string) :
  (exists t a, GeminiClient_init (S := unit) (R := unit) config world
                 api_key_arg system_prompt_arg tt = (t, tt, Val a))
  \/ (exists t e, GeminiClient_init (S := unit) (R := unit) config world
                    api_key_arg system_prompt_arg tt = (t, tt, Exc e)).
Proof.
  unfold GeminiClient_init. unfold_monad.
  destruct (opt_truthy (py_or api_key_arg (GEMINI_API_KEY config))); cbn.
  - destruct (genai_Client world _); cbn; [right; do 2 eexists; reflexivity|].
    destruct (chats_create world _ _ _); cbn.
    + right. do 2 eexists. reflexivity.
    + left. do 2 eexists. reflexivity.
  - right. do 2 eexists. reflexivity.
Qed.

(** The guarded part of [chat] ends with a value only after an exit
    phrase; otherwise an exception leaves it. *)
Lemma chat_guarded_outcome (config : Config) (world : World) (stdin : list string) :
  let guarded :=
    (client <- GeminiClient_init (S := unit) (R := unit) config world None None ;;
     display_welcome config world ;;
     console_print world
       "[dim]Type 'file <filename>' to attach a file to your message.[/dim]" ;;
     console_print world "[dim]Type 'help' for more information.[/dim]" ;;
     console_print world "---" ;;
     on_object client (chat_loop config world stdin) ;;
     pure tt) in
  (exists t, guarded tt = (t, tt, Val tt) /\ reaches_exit config stdin = true)
  \/ (exists t e, guarded tt = (t, tt, Exc e)).
Proof.
  intros guarded.
  assert (Hres : (result_of (guarded tt) = Val tt /\ reaches_exit config stdin = true)
                 \/ exists e, result_of (guarded tt) = Exc e).
  { unfold guarded.
    apply bind_outcome; [intros; right; eexists; reflexivity|
                         |apply GeminiClient_init_outcome].
    intros _ client _. unfold display_welcome.
    apply bind_outcome;
      [intros; right; eexists; reflexivity| |].
    2:{ (* the banner: three prints *)
      assert (Hbanner : forall (m1 m2 m3 : string),
                 (exists t a, (console_print (S := unit) (R := unit) world m1 ;;
                               console_print world m2 ;;
                               console_print world m3) tt = (t, tt, Val a))
                 \/ (exists t e, (console_print (S := unit) (R := unit) world m1 ;;
                                  console_print world m2 ;;
                                  console_print world m3) tt = (t, tt, Exc e))).
      { intros m1 m2 m3.
        destruct (console_print_outcome world m1) as [(t1 & [] & H1)|(t1 & e1 & H1)];
          [|right; exists t1, e1; now rewrite (bind_exc _ _ tt tt t1 e1 H1)].
        rewrite (bind_val _ _ tt tt t1 tt H1).
        destruct (console_print_outcome world m2) as [(t2 & [] & H2)|(t2 & e2 & H2)];
          [|right; exists (t1 ++ t2)%list, e2;
            now rewrite (bind_exc _ _ tt tt t2 e2 H2)].
        rewrite (bind_val _ _ tt tt t2 tt H2).
        destruct (console_print_outcome world m3) as [(t3 & [] & H3)|(t3 & e3 & H3)].
        - left. exists (t1 ++ t2 ++ t3)%list, tt. now rewrite H3.
        - right. exists (t1 ++ t2 ++ t3)%list, e3. now rewrite H3. }
      apply Hbanner. }
    intros _ _ _.
    apply bind_outcome;
      [intros; right; eexists; reflexivity| |apply console_print_outcome].
    intros _ _ _.
    apply bind_outcome;
      [intros; right; eexists; reflexivity| |apply console_print_outcome].
    intros _ _ _.
    apply bind_outcome;
      [intros; right; eexists; reflexivity| |apply console_print_outcome].
    intros _ _ _.
    destruct (chat_loop_summary config world unit stdin client)
      as (_ & _ & Hloop & _).
    unfold bind, on_object, pure, result_of in *.
    destruct (chat_loop config world stdin client) as [[t s'] r]. cbn [snd] in *.
    destruct Hloop as [[-> Hexit]|[e ->]].
    - left. split; [reflexivity | exact Hexit].
    - right. exists e. reflexivity. }
  unfold result_of in Hres.
  destruct (guarded tt) as [[t []] r]. cbn [snd] in Hres.
  destruct Hres as [[-> Hexit]|[e ->]].
  - left. exists t. split; [reflexivity | exact Hexit].
  - right. exists t, e. reflexivity.
Qed.

(** X15: the [chat] command ends the process with status 0 or 1, and
    with 0 only when some line of input was an exit phrase: whatever
    goes wrong on the way (no key, an SDK error, input that runs out,
    a message that is not valid markup) gives status 1. *)
Theorem chat_exit_status :
  forall (config : Config) (world : World)
         (api_key_opt : option string) (model : string)
         (system_prompt_opt : option string) (stdin : list string),
    (exit_code (result_of (chat config world api_key_opt model system_prompt_opt stdin tt)) = 0
     \/ exit_code (result_of (chat config world api_key_opt model system_prompt_opt stdin tt))
        = 1)
    /\ (exit_code (result_of (chat config world api_key_opt model system_prompt_opt stdin tt))
        = 0 ->
        reaches_exit config stdin = true).
Proof.
  intros config world api_key_opt model system_prompt_opt stdin.
  assert (H : (exit_code (result_of (chat config world api_key_opt model
                                       system_prompt_opt stdin tt)) = 0
               /\ reaches_exit config stdin = true)
              \/ exit_code (result_of (chat config world api_key_opt model
                                         system_prompt_opt stdin tt)) = 1).
  { unfold chat.
    assert (Hset : forall (c : bool) (ev : event),
               exists t, (if c then emit (S := unit) (R := unit) ev else pure tt) tt
                         = (t, tt, Val tt)).
    { intros [] ev; eexists; reflexivity. }
    destruct (Hset (opt_truthy api_key_opt)
                (EvSetEnv "GEMINI_API_KEY"
                   (match api_key_opt with Some k => k | None => "" end))) as [t1 H1].
    rewrite (bind_val _ _ tt tt t1 tt H1), result_of_after.
    destruct (Hset (negb (model =? GEMINI_MODEL config)%string)
                (EvSetEnv "GEMINI_MODEL" model)) as [t2 H2].
    rewrite (bind_val _ _ tt tt t2 tt H2), result_of_after.
    destruct (Hset (opt_truthy system_prompt_opt)
                (EvSetEnv "SYSTEM_PROMPT"
                   (match system_prompt_opt with Some p => p | None => "" end))) as [t3 H3].
    rewrite (bind_val _ _ tt tt t3 tt H3), result_of_after.
    destruct (chat_guarded_outcome config world stdin)
      as [(t & Hval & Hexit)|(t & e & Hexc)].
    - left. unfold try_excepts. rewrite Hval. split; [reflexivity | exact Hexit].
    - right. apply (chat_handlers_status world _ t e Hexc). }
  split.
  - destruct H as [[H _]|H]; [now left | now right].
  - intros H0. destruct H as [[_ H]|H]; [exact H|]. rewrite H in H0. discriminate H0.
Qed.

Lemma chat_exit_status_witness :
  exit_code (result_of (chat sample_config (sample_world server_token backend_echo)
                          None "gemini-2.0-flash" None ["hello"; "bye"] tt)) = 0
  /\ reaches_exit sample_config ["hello"; "bye"] = true.
Proof.
  assert (H0 : exit_code (result_of (chat sample_config
                                       (sample_world server_token backend_echo)
                                       None "gemini-2.0-flash" None ["hello"; "bye"] tt))
               = 0) by reflexivity.
  split; [exact H0|].
  exact (proj2 (chat_exit_status sample_config (sample_world server_token backend_echo)
                  None "gemini-2.0-flash" None ["hello"; "bye"]) H0).
Defined.

(** * Further properties of the line tests *)

Lemma lower_char_space (c : ascii) : is_space c = true -> lower_char c = c.
Proof.
  intros H. destruct c as [[] [] [] [] [] [] [] []]; try discriminate H; reflexivity.
Qed.

Lemma lower_app (a b : string) : lower (a ++ b) = (lower a ++ lower b)%string.
Proof. induction a as [|c a IH]; cbn; [reflexivity | now rewrite IH]. Qed.

Lemma lower_all_space (ws : string) : all_space ws = true -> lower ws = ws.
Proof.
  induction ws as [|c ws IH]; cbn; [reflexivity|].
  intros H. apply andb_prop in H as [Hc Hws].
  now rewrite (lower_char_space c Hc), (IH Hws).
Qed.

Lemma all_space_app (a b : string) :
  all_space (a ++ b) = all_space a && all_space b.
Proof.
  induction a as [|c a IH]; cbn; [reflexivity|].
  now rewrite IH, andb_assoc.
Qed.

Lemma all_space_rev (ws : string) : all_space (string_rev ws) = all_space ws.
Proof.
  induction ws as [|c ws IH]; cbn; [reflexivity|].
  rewrite all_space_app, IH. cbn. rewrite andb_true_r. apply andb_comm.
Qed.

Lemma lstrip_all_space (ws : string) : all_space ws = true -> lstrip ws = "".
Proof.
  induction ws as [|c ws IH]; cbn; [reflexivity|].
  intros H. apply andb_prop in H as [Hc Hws]. now rewrite Hc, (IH Hws).
Qed.

Lemma lstrip_app (a b : string) :
  lstrip (a ++ b) = if all_space a then lstrip b else (lstrip a ++ b)%string.
Proof.
  induction a as [|c a IH]; cbn; [reflexivity|].
  destruct (is_space c); cbn; [exact IH | reflexivity].
Qed.

Lemma rstrip_app_space (s ws : string) :
  all_space ws = true -> rstrip (s ++ ws) = rstrip s.
Proof.
  intros H. unfold rstrip.
  rewrite string_rev_app, lstrip_app, all_space_rev, H. reflexivity.
Qed.

Lemma strip_padding (ws1 s ws2 : string) :
  all_space ws1 = true -> all_space ws2 = true ->
  strip (ws1 ++ s ++ ws2) = strip s.
Proof.
  intros H1 H2. unfold strip.
  rewrite lstrip_app, H1, lstrip_app.
  destruct (all_space s) eqn:Hs.
  - rewrite (lstrip_all_space ws2 H2), (lstrip_all_space s Hs). reflexivity.
  - apply rstrip_app_space. exact H2.
Qed.

Lemma slice_from_app (a b : string) :
  slice_from (String.length a) (a ++ b) = b.
Proof. induction a as [|c a IH]; cbn; [now destruct b | exact IH]. Qed.

(** X16: the exit test looks through letter case and surrounding
    white space: two lines that are the same once lower-cased are
    both exit phrases or both not, and padding a line with white
    space on either side changes nothing. *)
Theorem exit_test_ignores_case_and_padding :
  forall (config : Config) (line1 line2 ws1 ws2 : string),
    all_space ws1 = true ->
    all_space ws2 = true ->
    lower line1 = lower line2 ->
    is_exit_line config (ws1 ++ line1 ++ ws2) = is_exit_line config line2.
Proof.
  intros config line1 line2 ws1 ws2 H1 H2 Hcase.
  unfold is_exit_line.
  rewrite !lower_app, (lower_all_space ws1 H1), (lower_all_space ws2 H2), Hcase.
  rewrite (strip_padding ws1 (lower line2) ws2 H1 H2). reflexivity.
Qed.

Lemma exit_test_ignores_case_and_padding_witness :
  all_space "  " = true
  /\ lower "QuIt" = lower "quit"
  /\ is_exit_line sample_config "  QuIt  " = is_exit_line sample_config "quit"
  /\ is_exit_line sample_config "quit" = true.
Proof.
  split; [reflexivity|]. split; [reflexivity|]. split; [|reflexivity].
  apply (exit_test_ignores_case_and_padding sample_config "QuIt" "quit" "  " "  "
           eq_refl eq_refl eq_refl).
Defined.

(** X17: the file test is made on the line as typed, not on the
    stripped line: a line that begins with white space is never a
    file command, so unless it is an exit phrase the loop hands it to
    the chat backend as a message, white space included. *)
Theorem leading_space_is_not_file_command :
  forall (config : Config) (world : World) (R : Type)
         (c : ascii) (text : string) (rest : list string) (self : GeminiClient),
    is_space c = true ->
    is_file_line (String c text) = false
    /\ (is_exit_line config (String c text) = false ->
        exists more,
          sent_messages
            (events_of (chat_loop (R := R) config world (String c text :: rest) self))
          = String c text :: more).
Proof.
  intros config world R c text rest self Hc.
  assert (Hfile : is_file_line (String c text) = false).
  { unfold is_file_line, startswith. cbn [lower].
    rewrite (lower_char_space c Hc).
    unfold String.prefix; fold String.prefix.
    destruct (Ascii.ascii_dec "f" c) as [<-|]; [discriminate Hc | reflexivity]. }
  split; [exact Hfile|].
  intros Hexit. rewrite chat_loop_step.
  destruct (turn_outcome_facts config world R (String c text) self)
    as (t & self' & r & Hturn & _ & Hsent & Hend).
  rewrite Hturn. rewrite Hexit, Hfile in Hsent.
  destruct Hend as [->|(e & _ & _ & _ & Hfile' & _)];
    [|rewrite Hfile in Hfile'; discriminate Hfile'].
  rewrite Hexit, events_of_after.
  change (EvInput (USER_PROMPT_PREFIX config) :: t)
    with ([EvInput (USER_PROMPT_PREFIX config)] ++ t)%list.
  rewrite !sent_messages_app, Hsent. eexists. reflexivity.
Qed.

Lemma leading_space_is_not_file_command_witness :
  is_space " " = true
  /\ is_file_line " file survey.json" = false
  /\ is_exit_line sample_config " file survey.json" = false
  /\ sent_messages
       (events_of (chat_loop (R := unit) sample_config
                     (sample_world server_token backend_echo)
                     [" file survey.json"; "exit"] sample_client))
     = [" file survey.json"].
Proof.
  destruct (leading_space_is_not_file_command sample_config
              (sample_world server_token backend_echo) unit " " "file survey.json"
              ["exit"] sample_client eq_refl) as [Hfile Hsent].
  split; [reflexivity|]. split; [exact Hfile|]. split; [reflexivity|].
  destruct (Hsent eq_refl) as [more Hmore]. reflexivity.
Defined.

(** X18: the path of a file command is what follows the first five
    characters of the line, with the white space around it removed
    and its letter case kept: only the command word is compared
    without regard to case.  That path, when it is not empty, is the
    one the shell looks for in the file system, right after the
    prompt. *)
Theorem file_path_keeps_case_and_drops_padding :
  forall (config : Config) (world : World) (R : Type)
         (command ws1 path ws2 : string) (rest : list string) (self : GeminiClient),
    String.length command = 5%nat ->
    all_space ws1 = true ->
    all_space ws2 = true ->
    strip path = path ->
    file_path_of (command ++ ws1 ++ path ++ ws2) = path
    /\ (is_exit_line config (command ++ ws1 ++ path ++ ws2) = false ->
        is_file_line (command ++ ws1 ++ path ++ ws2) = true ->
        path <> "" ->
        exists t,
          events_of (chat_loop (R := R) config world
                       ((command ++ ws1 ++ path ++ ws2) :: rest) self)
          = EvInput (USER_PROMPT_PREFIX config) :: EvPathExists path :: t).
Proof.
  intros config world R command ws1 path ws2 rest self Hlen H1 H2 Hpath.
  assert (Hfp : file_path_of (command ++ ws1 ++ path ++ ws2) = path).
  { unfold file_path_of. rewrite <- Hlen, slice_from_app.
    rewrite (strip_padding ws1 path ws2 H1 H2). exact Hpath. }
  split; [exact Hfp|].
  intros Hexit Hfile Hne.
  rewrite chat_loop_step. unfold turn_outcome.
  rewrite Hexit, Hfile, Hfp.
  assert (Htruthy : str_truthy path = true).
  { unfold str_truthy. destruct (String.eqb_spec path ""); [contradiction | reflexivity]. }
  rewrite Htruthy. cbn [negb].
  destruct (path_exists world path).
  - rewrite events_of_after. eexists. reflexivity.
  - destruct (print_error world (not_found_markup path)).
    + eexists. reflexivity.
    + rewrite events_of_after. eexists. reflexivity.
Qed.

Lemma file_path_keeps_case_and_drops_padding_witness :
  is_file_line "FILE   Data/Survey.JSON " = true
  /\ is_exit_line sample_config "FILE   Data/Survey.JSON " = false
  /\ file_path_of "FILE   Data/Survey.JSON " = "Data/Survey.JSON"
  /\ events_of (chat_loop (R := unit) sample_config
                  (sample_world server_token backend_echo)
                  ["FILE   Data/Survey.JSON "] sample_client)
     = [EvInput "You: ";
        EvPathExists "Data/Survey.JSON";
        EvConsole "[bold red]Error: File not found: Data/Survey.JSON[/bold red]";
        EvInput "You: "].
Proof.
  destruct (file_path_keeps_case_and_drops_padding sample_config
              (sample_world server_token backend_echo) unit
              "FILE " "  " "Data/Survey.JSON" " " [] sample_client
              eq_refl eq_refl eq_refl eq_refl) as [Hpath Hlooked].
  split; [reflexivity|]. split; [reflexivity|]. split; [exact Hpath|].
  destruct (Hlooked eq_refl eq_refl) as [t Ht]; [discriminate|].
  reflexivity.
Defined.

(** * Further properties: replies, construction and stored tokens *)

(** X19: for a line that is neither an exit phrase nor a file
    command, a reply of the backend with a text is displayed (as
    Markdown when rich formatting is on, after the response prefix
    otherwise), and the loop goes on to the next line with a client
    whose conversation holds what the SDK recorded for the call. *)
Theorem chat_loop_displays_reply :
  forall (config : Config) (world : World) (R : Type)
         (line text : string) (recorded : list (string * string))
         (rest : list string) (self : GeminiClient),
    is_exit_line config line = false ->
    is_file_line line = false ->
    backend world (self_chat self) line = BackendReplies text recorded ->
    chat_loop (R := R) config world (line :: rest) self
    = after [EvInput (USER_PROMPT_PREFIX config);
             EvLog (logger self) INFO "USER: {}" [ArgStr line];
             EvBackend line;
             EvLog (logger self) INFO "AI: {}" [ArgStr text];
             display_event config text]
            (chat_loop (R := R) config world rest (with_turns self recorded)).
Proof.
  intros config world R line text recorded rest self Hexit Hfile Hreply.
  rewrite chat_loop_step. unfold turn_outcome.
  rewrite Hexit, Hfile, Hreply. reflexivity.
Qed.

Lemma chat_loop_displays_reply_witness :
  is_exit_line sample_config "hello" = false
  /\ is_file_line "hello" = false
  /\ chat_loop (R := unit) sample_config (sample_world server_token backend_echo)
       ["hello"; "bye"] sample_client
     = ([EvInput "You: ";
         EvLog "GeminiChat" INFO "USER: {}" [ArgStr "hello"];
         EvBackend "hello";
         EvLog "GeminiChat" INFO "AI: {}" [ArgStr "You said: hello"];
         EvPrint "AI: You said: hello";
         EvInput "You: ";
         farewell],
        with_turns sample_client [("user", "hello"); ("model", "You said: hello")],
        Val tt).
Proof.
  split; [reflexivity|]. split; [reflexivity|].
  rewrite (chat_loop_displays_reply sample_config (sample_world server_token backend_echo)
             unit "hello" "You said: hello"
             [("user", "hello"); ("model", "You said: hello")] ["bye"] sample_client
             eq_refl eq_refl eq_refl).
  reflexivity.
Defined.

(** The whole of [authenticate_with_voxco], by what
    [authenticate_voxco] comes to. *)
Lemma authenticate_with_voxco_run (world : World) (R : Type)
    (username password : string) (self : GeminiClient) :
  authenticate_with_voxco (R := R) world username password self
  = match authenticate_voxco (R := R) (http world) username password self with
    | (t, _, Val token) =>
        if truthy token
        then ((t ++ [EvLog (logger self) INFO
                       "Successfully authenticated with Voxco API" []])%list,
              set_voxco_token self token, Val token)
        else ((t ++ [EvLog (logger self) ERROR
                       "Failed to authenticate with Voxco API" []])%list,
              self, Val token)
    | (t, _, Ret r) => (t, self, Ret r)
    | (t, _, Exc e) => (t, self, Exc e)
    | (t, _, Exit c) => (t, self, Exit c)
    end.
Proof.
  rewrite (authenticate_voxco_run (http world) GeminiClient R username password self).
  unfold authenticate_with_voxco, authenticate_with_voxco_body.
  unfold call_total at 1. unfold bind at 1.
  rewrite (authenticate_voxco_run (http world) GeminiClient pyval username password self).
  unfold logger_info, logger_error.
  destruct (fetched_json (http world) (auth_request username password)) as [v|msg].
  - destruct v; try reflexivity.
    unfold_monad. cbn. destruct (truthy (dict_get entries "Token")); reflexivity.
  - reflexivity.
Qed.

(** X20: [authenticate_with_voxco] treats a token as obtained only
    when it is truthy.  A falsy one (a missing or null ["Token"], an
    empty string, zero, [false], an empty list or object) is logged as
    a failed authentication, even after an HTTP success, and the
    token already stored stays; the falsy value is still what the
    method returns. *)
Theorem authenticate_with_voxco_falsy_token :
  forall (world : World) (R : Type) (username password : string)
         (self : GeminiClient) (token : pyval),
    result_of (authenticate_voxco (R := R) (http world) username password self)
    = Val token ->
    truthy token = false ->
    authenticate_with_voxco (R := R) world username password self
    = ((events_of (authenticate_voxco (R := R) (http world) username password self)
        ++ [EvLog (logger self) ERROR "Failed to authenticate with Voxco API" []])%list,
       self, Val token).
Proof.
  intros world R username password self token Hres Hfalsy.
  rewrite authenticate_with_voxco_run.
  destruct (authenticate_voxco (http world) username password self) as [[t s'] r].
  unfold result_of, events_of in *. cbn [fst snd] in *. subst r.
  rewrite Hfalsy. reflexivity.
Qed.

Lemma authenticate_with_voxco_falsy_token_witness :
  result_of (authenticate_voxco (R := unit)
               (http (sample_world server_empty_token backend_echo)) "ann" "pw"
               client_with_token)
  = Val (PyStr "")
  /\ truthy (PyStr "") = false
  /\ authenticate_with_voxco (R := unit) (sample_world server_empty_token backend_echo)
       "ann" "pw" client_with_token
     = ([EvLog "root" INFO "Authenticating with Voxco API for user: {}" [ArgStr "ann"];
         EvHttp (auth_request "ann" "pw");
         EvLog "root" INFO "Authentication successful. Token: {}" [ArgVal (PyStr "")];
         EvLog "GeminiChat" ERROR "Failed to authenticate with Voxco API" []],
        client_with_token, Val (PyStr ""))
  /\ voxco_token client_with_token = PyStr "old-token".
Proof.
  split; [reflexivity|]. split; [reflexivity|]. split; [|reflexivity].
  rewrite (authenticate_with_voxco_falsy_token
             (sample_world server_empty_token backend_echo) unit "ann" "pw"
             client_with_token (PyStr "") eq_refl eq_refl).
  reflexivity.
Defined.

(** X21: an exception out of [GeminiClient(...)] is either the
    credential error, raised by the constructor itself, or what the
    SDK raised while building the client or the chat. *)
Theorem GeminiClient_init_exceptions :
  forall (config : Config) (world : World) (S R : Type)
         (api_key_arg system_prompt_arg : option string) (s : S) (e : exn),
    result_of (GeminiClient_init (R := R) config world api_key_arg system_prompt_arg s)
    = Exc e ->
    (e = credential_error
     /\ opt_truthy (py_or api_key_arg (GEMINI_API_KEY config)) = false)
    \/ genai_Client world (py_or api_key_arg (GEMINI_API_KEY config)) = Some e
    \/ chats_create world (GEMINI_MODEL config)
         (py_or system_prompt_arg (SYSTEM_PROMPT config)) ai_functions = Some e.
Proof.
  intros config world S R api_key_arg system_prompt_arg s e.
  unfold GeminiClient_init, result_of. unfold_monad.
  destruct (opt_truthy (py_or api_key_arg (GEMINI_API_KEY config))); cbn.
  - destruct (genai_Client world _) as [e1|] eqn:E1; cbn.
    + intros H. injection H as <-. right. now left.
    + destruct (chats_create world _ _ _) as [e2|] eqn:E2; cbn.
      * intros H. injection H as <-. right. now right.
      * discriminate.
  - intros H. injection H as <-. left. split; reflexivity.
Qed.

Lemma GeminiClient_init_exceptions_witness :
  result_of (GeminiClient_init (R := unit) sample_config sdk_failing_world None None tt)
  = Exc (mkExn (OtherException "RuntimeError") "no transport")
  /\ genai_Client sdk_failing_world (py_or None (GEMINI_API_KEY sample_config))
     = Some (mkExn (OtherException "RuntimeError") "no transport").
Proof.
  assert (H : result_of (GeminiClient_init (R := unit) sample_config sdk_failing_world
                           None None tt)
              = Exc (mkExn (OtherException "RuntimeError") "no transport"))
    by reflexivity.
  split; [exact H|].
  destruct (GeminiClient_init_exceptions sample_config sdk_failing_world unit unit
              None None tt _ H) as [[Hcred _]|[Hsdk|Hchat]].
  - discriminate Hcred.
  - exact Hsdk.
  - discriminate Hchat.
Defined.
